(** * testdata_generator: schema-driven record generation and formatters

    A shallow embedding of [testdata_generator/generator.py],
    [testdata_generator/formatters.py] and the JSON path of
    [testdata_generator/cli.py].

    Python values are an inductive type of JSON-like data; a Python [str]
    is a Rocq [string], one character per code point (code points 0..255).
    A Python [dict] is an association list in insertion order whose keys
    are pairwise distinct.  The libraries the code calls (random, faker,
    uuid, datetime, csv, float arithmetic) are interfaces, given as type
    classes; the code of the repository is defined over them. *)

From Stdlib Require Import ZArith String Ascii List Bool Lia DecimalString.
Import ListNotations.

Open Scope Z_scope.
Open Scope string_scope.

(* ===================================================================== *)
(** ** Characters and strings *)

Definition squote : ascii := "039"%char.
Definition dquote : ascii := "034"%char.
Definition backslash : ascii := "092"%char.
Definition char_tab : ascii := "009"%char.
Definition char_lf : ascii := "010"%char.
Definition char_cr : ascii := "013"%char.
Definition char_bs : ascii := "008"%char.
Definition char_ff : ascii := "012"%char.

Definition str1 (c : ascii) : string := String c EmptyString.

(** [sep.join(ls)] *)
Definition join (sep : string) (ls : list string) : string :=
  String.concat sep ls.

(** [c in s] for a one-character needle. *)
Fixpoint str_contains (c : ascii) (s : string) : bool :=
  match s with
  | EmptyString => false
  | String a s' => Ascii.eqb a c || str_contains c s'
  end.

(** [s.replace(old, new)]: the occurrences of [old] are replaced from left
    to right, without overlap.  When [old] is empty Python puts [new]
    before every character and at the end. *)
Fixpoint str_replace (old new s : string) : string :=
  match s with
  | EmptyString =>
      match old with EmptyString => new | _ => EmptyString end
  | String c s' =>
      match old with
      | EmptyString => new ++ String c (str_replace old new s')
      | String _ old' =>
          if prefix old s
          then new ++
               (fix skip (n : nat) (t : string) {struct t} : string :=
                  match n with
                  | O => str_replace old new t
                  | S n' =>
                      match t with
                      | EmptyString => EmptyString
                      | String _ t' => skip n' t'
                      end
                  end) (String.length old') s'
          else String c (str_replace old new s')
      end
  end.

(** [str.isspace] on one character (code points below 256). *)
Definition is_space (c : ascii) : bool :=
  let n := N_of_ascii c in
  (((9 <=? n) && (n <=? 13)) || ((28 <=? n) && (n <=? 32))
   || (n =? 133) || (n =? 160))%N.

Fixpoint lstrip (s : string) : string :=
  match s with
  | EmptyString => EmptyString
  | String c s' => if is_space c then lstrip s' else s
  end.

Fixpoint rstrip (s : string) : string :=
  match s with
  | EmptyString => EmptyString
  | String c s' =>
      match rstrip s' with
      | EmptyString => if is_space c then EmptyString else str1 c
      | r => String c r
      end
  end.

(** [s.strip()] *)
Definition strip (s : string) : string := rstrip (lstrip s).

Definition hex_digit (n : N) : ascii :=
  match String.get (N.to_nat n) "0123456789abcdef" with
  | Some c => c
  | None => "0"%char
  end.

(** Two lower-case hexadecimal digits of a code point below 256. *)
Definition hex2 (c : ascii) : string :=
  let n := N_of_ascii c in
  String (hex_digit (n / 16)) (str1 (hex_digit (n mod 16))).

(** [str(n)] for an [int]. *)
Definition int_str (z : Z) : string := NilZero.string_of_int (Z.to_int z).

(** What [repr] leaves as it is. *)
Definition repr_printable (c : ascii) : bool :=
  let n := N_of_ascii c in
  (((32 <=? n) && (n <? 127)) || ((161 <=? n) && negb (n =? 173)))%N.

Definition repr_char (quote c : ascii) : string :=
  if Ascii.eqb c quote || Ascii.eqb c backslash then String backslash (str1 c)
  else if Ascii.eqb c char_tab then String backslash "t"
  else if Ascii.eqb c char_lf then String backslash "n"
  else if Ascii.eqb c char_cr then String backslash "r"
  else if repr_printable c then str1 c
  else String backslash (String "x" (hex2 c)).

Fixpoint str_flat_map (f : ascii -> string) (s : string) : string :=
  match s with
  | EmptyString => EmptyString
  | String c s' => f c ++ str_flat_map f s'
  end.

(** [repr(s)] for a [str]. *)
Definition str_repr (s : string) : string :=
  let quote :=
    if str_contains squote s && negb (str_contains dquote s)
    then dquote else squote in
  String quote (str_flat_map (repr_char quote) s ++ str1 quote).

(** [json.encoder.py_encode_basestring_ascii]: the escape of one character. *)
Definition json_escape_char (c : ascii) : string :=
  let n := N_of_ascii c in
  if Ascii.eqb c backslash then String backslash (str1 backslash)
  else if Ascii.eqb c dquote then String backslash (str1 dquote)
  else if ((32 <=? n) && (n <=? 126))%N then str1 c
  else if Ascii.eqb c char_bs then String backslash "b"
  else if Ascii.eqb c char_ff then String backslash "f"
  else if Ascii.eqb c char_lf then String backslash "n"
  else if Ascii.eqb c char_cr then String backslash "r"
  else if Ascii.eqb c char_tab then String backslash "t"
  else String backslash (String "u" (String "0" (String "0" (hex2 c)))).

Definition json_str (s : string) : string :=
  String dquote (str_flat_map json_escape_char s ++ str1 dquote).

Definition unhex (c : ascii) : option N :=
  match index 0 (str1 c) "0123456789abcdef" with
  | Some i => Some (N.of_nat i)
  | None => None
  end.

(** Reads one escaped character back from the front of a JSON string
    body: the inverse of [json_escape_char], used to show that the escape
    loses nothing. *)
Definition json_unescape1 (s : string) : option (ascii * string) :=
  match s with
  | EmptyString => None
  | String c r =>
      if Ascii.eqb c dquote then None
      else if Ascii.eqb c backslash then
        match r with
        | EmptyString => None
        | String x r' =>
            if Ascii.eqb x backslash then Some (backslash, r')
            else if Ascii.eqb x dquote then Some (dquote, r')
            else if Ascii.eqb x "b" then Some (char_bs, r')
            else if Ascii.eqb x "f" then Some (char_ff, r')
            else if Ascii.eqb x "n" then Some (char_lf, r')
            else if Ascii.eqb x "r" then Some (char_cr, r')
            else if Ascii.eqb x "t" then Some (char_tab, r')
            else if Ascii.eqb x "u" then
              match r' with
              | String _ (String _ (String h (String l r''))) =>
                  match unhex h, unhex l with
                  | Some a, Some b => Some (ascii_of_N (16 * a + b), r'')
                  | _, _ => None
                  end
              | _ => None
              end
            else None
        end
      else Some (c, r)
  end.

(** [' ' * n] *)
Fixpoint spaces (n : nat) : string :=
  match n with
  | O => EmptyString
  | S n' => String " " (spaces n')
  end.

(* ===================================================================== *)
(** ** Floating point, as far as the code touches it *)

Class PyFloat : Type := {
  float : Type;
  (** [repr(x)], which is also [str(x)] *)
  float_repr : float -> string;
  (** what [json.dumps] writes for a float *)
  float_json : float -> string;
  (** [x == 0.0] *)
  float_is_zero : float -> bool;
}.

(* ===================================================================== *)
(** ** Python values *)

Section Values.
Context {FL : PyFloat}.

#[local] Set Warnings "-register-all".

Inductive value : Type :=
| VNone
| VBool (b : bool)
| VInt (z : Z)
| VFloat (x : float)
| VStr (s : string)
| VList (l : list value)
| VDict (d : list (string * value)).

(** A [dict] with [str] keys, in insertion order. *)
Definition dict : Type := list (string * value).

Fixpoint dict_lookup (d : dict) (k : string) : option value :=
  match d with
  | [] => None
  | (k', v) :: d' => if String.eqb k' k then Some v else dict_lookup d' k
  end.

(** [d.get(k, default)] *)
Definition dict_get (d : dict) (k : string) (default : value) : value :=
  match dict_lookup d k with
  | Some v => v
  | None => default
  end.

(** [k in d] *)
Definition dict_mem (d : dict) (k : string) : bool :=
  match dict_lookup d k with Some _ => true | None => false end.

(** [list(d.keys())] *)
Definition dict_keys (d : dict) : list string := map fst d.

(** [d[k] = v]: an existing key keeps its place, a new one goes last. *)
Fixpoint dict_set (d : dict) (k : string) (v : value) : dict :=
  match d with
  | [] => [(k, v)]
  | (k', v') :: d' =>
      if String.eqb k' k then (k', v) :: d' else (k', v') :: dict_set d' k v
  end.

(** The invariant of a Python [dict]: no key twice. *)
Definition dict_wf (d : dict) : Prop := NoDup (dict_keys d).

(** [v == s] for a [str] literal [s]. *)
Definition eq_str (v : value) (s : string) : bool :=
  match v with
  | VStr t => String.eqb t s
  | _ => false
  end.

(** [bool(v)] *)
Definition truthy (v : value) : bool :=
  match v with
  | VNone => false
  | VBool b => b
  | VInt z => negb (Z.eqb z 0)
  | VFloat x => negb (float_is_zero x)
  | VStr s => negb (String.eqb s EmptyString)
  | VList l => match l with [] => false | _ => true end
  | VDict d => match d with [] => false | _ => true end
  end.

(** [type(v).__name__] *)
Definition type_name (v : value) : string :=
  match v with
  | VNone => "NoneType"
  | VBool _ => "bool"
  | VInt _ => "int"
  | VFloat _ => "float"
  | VStr _ => "str"
  | VList _ => "list"
  | VDict _ => "dict"
  end.

(** [repr(v)] *)
Fixpoint py_repr (v : value) : string :=
  match v with
  | VNone => "None"
  | VBool b => if b then "True" else "False"
  | VInt z => int_str z
  | VFloat x => float_repr x
  | VStr s => str_repr s
  | VList l => "[" ++ join ", " (map py_repr l) ++ "]"
  | VDict d =>
      "{" ++ join ", "
               (map (fun kv => str_repr (fst kv) ++ ": " ++ py_repr (snd kv)) d)
          ++ "}"
  end.

(** [str(v)], which is what an f-string writes for [{v}] *)
Definition py_str (v : value) : string :=
  match v with
  | VStr s => s
  | _ => py_repr v
  end.

(** [json.dumps(v, indent=indent, default=str)].  Every [value] is
    serialisable, so [default] is never called.  [indent] is [None] or an
    [int]; a negative [int] indents like 0.  [level] is the nesting depth. *)
Fixpoint json_encode (indent : option Z) (level : nat) (v : value) : string :=
  let item_sep := match indent with None => ", " | Some _ => "," end in
  let newline (lv : nat) : string :=
    match indent with
    | None => EmptyString
    | Some n => String char_lf (spaces (Z.to_nat n * lv)%nat)
    end in
  match v with
  | VNone => "null"
  | VBool b => if b then "true" else "false"
  | VInt z => int_str z
  | VFloat x => float_json x
  | VStr s => json_str s
  | VList l =>
      match l with
      | [] => "[]"
      | _ =>
          "[" ++ newline (S level)
              ++ join (item_sep ++ newline (S level))
                      (map (json_encode indent (S level)) l)
              ++ newline level ++ "]"
      end
  | VDict d =>
      match d with
      | [] => "{}"
      | _ =>
          "{" ++ newline (S level)
              ++ join (item_sep ++ newline (S level))
                      (map (fun kv =>
                              json_str (fst kv) ++ ": "
                                ++ json_encode indent (S level) (snd kv)) d)
              ++ newline level ++ "}"
      end
  end.

Definition json_dumps (indent : option Z) (v : value) : string :=
  json_encode indent 0 v.

End Values.

Arguments VNone {FL}.
Arguments VBool {FL} b.
Arguments VInt {FL} z.
Arguments VStr {FL} s.

(* ===================================================================== *)
(** ** Exceptions and results *)

(** The exceptions a call can end with.  Those that [generator.py] raises
    itself are [ValueError]s with the message it builds; [TypeError] is
    what the builtin [range] raises on a non-integer; whatever is raised
    inside a call into a library is kept apart as [LibraryError]. *)
Inductive exn : Type :=
| ValueError (msg : string)
| TypeError (msg : string)
| LibraryError (msg : string).

Inductive Result (A : Type) : Type :=
| Ok (a : A)
| Raise (e : exn).

Arguments Ok {A} a.
Arguments Raise {A} e.

(** What a library call gives back: the description of the exception it
    raised, or its value. *)
Definition LibResult (A : Type) : Type := (string + A)%type.

Definition of_lib {A : Type} (r : LibResult A) : Result A :=
  match r with
  | inl msg => Raise (LibraryError msg)
  | inr a => Ok a
  end.

Definition bindR {A B : Type} (r : Result A) (k : A -> Result B) : Result B :=
  match r with
  | Ok a => k a
  | Raise e => Raise e
  end.

Notation "'try' x <- c 'in' k" := (bindR c (fun x => k))
  (at level 61, x name, c at next level, right associativity).

(** A [for] loop over [xs] that updates the accumulator [acc] and stops at
    the first exception. *)
Fixpoint for_loopR {A S : Type} (xs : list A) (body : A -> S -> Result S)
  (acc : S) : Result S :=
  match xs with
  | [] => Ok acc
  | x :: xs' => try acc' <- body x acc in for_loopR xs' body acc'
  end.

(** [range(n)] for an [int] [n]. *)
Definition range (n : Z) : list Z := map Z.of_nat (seq 0 (Z.to_nat n)).

(* ===================================================================== *)
(** ** The libraries behind the generator *)

Class Library {FL : PyFloat} : Type := {
  (** the state of a [random.Random] instance *)
  Random : Type;
  (** what no seed reaches: the entropy pool of the operating system and
      the wall clock *)
  Env : Type;
  (** library objects: a [UUID], a [datetime], a [date] *)
  Obj : Type;
  (** a [Faker] instance *)
  Faker : Type;
  (** the state [Random.seed(s)] leaves *)
  random_seed : Z -> Random;
  random_randint : value -> value -> Random -> Random * LibResult value;
  random_uniform : value -> value -> Random -> Random * LibResult value;
  random_choice : value -> Random -> Random * LibResult value;
  (** [round(x, ndigits)] *)
  builtin_round : value -> value -> LibResult value;
  (** [int(x)] for a float *)
  float_trunc : float -> LibResult Z;
  (** [uuid.uuid4()], from [os.urandom] *)
  uuid_uuid4 : Env -> Env * Obj;
  (** [datetime.utcnow()] *)
  datetime_utcnow : Env -> Env * Obj;
  obj_str : Obj -> string;
  obj_isoformat : Obj -> string;
  obj_timestamp : Obj -> float;
  (** [Faker(locale)] *)
  faker_new : string -> LibResult Faker;
  (** a provider method that returns a plain value; it draws from Faker's
      shared generator and may read the clock *)
  faker_call : Faker -> string -> list value -> dict ->
               Random * Env -> (Random * Env) * LibResult value;
  (** a provider method that returns a [datetime] or a [date] *)
  faker_call_obj : Faker -> string ->
                   Random * Env -> (Random * Env) * LibResult Obj;
}.

Section Generator.
Context {FL : PyFloat} {L : Library}.

(** Everything a run can read or change: the generator of the [random]
    module, the generator shared by the [Faker] instances, and the
    environment. *)
Record World : Type := mkWorld {
  global_random : Random;
  faker_random : Random;
  os_env : Env;
}.

Definition M (A : Type) : Type := World -> World * Result A.

Definition ret {A : Type} (a : A) : M A := fun w => (w, Ok a).

Definition raise {A : Type} (e : exn) : M A := fun w => (w, Raise e).

Definition bind {A B : Type} (c : M A) (k : A -> M B) : M B :=
  fun w =>
    match c w with
    | (w', Ok a) => k a w'
    | (w', Raise e) => (w', Raise e)
    end.

Notation "x <- c ;; k" := (bind c (fun x => k))
  (at level 61, c at next level, right associativity).
Notation "c ;;; k" := (bind c (fun _ => k))
  (at level 61, right associativity).

Definition lift_result {A : Type} (r : Result A) : M A := fun w => (w, r).

Definition lift_pure {A : Type} (r : LibResult A) : M A :=
  lift_result (of_lib r).

(** A call into the [random] module. *)
Definition lift_random {A : Type} (f : Random -> Random * LibResult A) : M A :=
  fun w =>
    let (r, a) := f (global_random w) in
    (mkWorld r (faker_random w) (os_env w), of_lib a).

(** A call into a [Faker] instance. *)
Definition lift_faker {A : Type}
  (f : Random * Env -> (Random * Env) * LibResult A) : M A :=
  fun w =>
    let '((r, e), a) := f (faker_random w, os_env w) in
    (mkWorld (global_random w) r e, of_lib a).

(** A call that only reads the environment. *)
Definition lift_env {A : Type} (f : Env -> Env * A) : M A :=
  fun w =>
    let (e, a) := f (os_env w) in
    (mkWorld (global_random w) (faker_random w) e, Ok a).

(** A [for] loop with an accumulator. *)
Fixpoint for_loop {A S : Type} (xs : list A) (body : A -> S -> M S)
  (acc : S) : M S :=
  match xs with
  | [] => ret acc
  | x :: xs' => acc' <- body x acc ;; for_loop xs' body acc'
  end.

(** A list comprehension [[f(x) for x in xs]]. *)
Fixpoint list_comp {A B : Type} (xs : list A) (f : A -> M B) : M (list B) :=
  match xs with
  | [] => ret []
  | x :: xs' => b <- f x ;; bs <- list_comp xs' f ;; ret (b :: bs)
  end.

(** [range(v)] for any value [v]. *)
Definition py_range (v : value) : Result (list Z) :=
  match v with
  | VInt z => Ok (range z)
  | VBool b => Ok (range (if b then 1 else 0))
  | _ => Raise (TypeError ("'" ++ type_name v
                             ++ "' object cannot be interpreted as an integer"))
  end.

(* --------------------------------------------------------------------- *)
(** *** class TestDataGenerator *)

Record TestDataGenerator : Type := { fake : Faker }.

Definition user_schema : dict :=
  [ ("id", VStr "uuid");
    ("first_name", VStr "first_name");
    ("last_name", VStr "last_name");
    ("email", VStr "email");
    ("phone", VStr "phone");
    ("created_at", VStr "datetime") ].

Definition address_schema : dict :=
  [ ("street", VStr "street_address");
    ("city", VStr "city");
    ("state", VStr "state");
    ("zip_code", VStr "zipcode");
    ("country", VStr "country") ].

Definition payment_schema : dict :=
  [ ("card_number", VStr "credit_card_number");
    ("card_type", VStr "credit_card_provider");
    ("expiry", VStr "credit_card_expire");
    ("cvv", VStr "credit_card_security_code") ].

Definition product_schema : dict :=
  [ ("id", VStr "uuid");
    ("name", VStr "word");
    ("description", VStr "sentence");
    ("price", VDict [ ("type", VStr "decimal"); ("min", VInt 1);
                      ("max", VInt 1000); ("precision", VInt 2) ]);
    ("sku", VStr "ean13");
    ("in_stock", VStr "boolean") ].

Definition order_schema : dict :=
  [ ("order_id", VStr "uuid");
    ("customer_email", VStr "email");
    ("total", VDict [ ("type", VStr "decimal"); ("min", VInt 10);
                      ("max", VInt 5000); ("precision", VInt 2) ]);
    ("status", VDict [ ("type", VStr "choice");
                       ("values", VList [ VStr "pending"; VStr "processing";
                                          VStr "shipped"; VStr "delivered";
                                          VStr "cancelled" ]) ]);
    ("created_at", VStr "datetime") ].

Definition api_response_schema : dict :=
  [ ("request_id", VStr "uuid");
    ("timestamp", VStr "iso8601");
    ("status_code", VDict [ ("type", VStr "choice");
                            ("values", VList [ VInt 200; VInt 201; VInt 400;
                                               VInt 404; VInt 500 ]) ]);
    ("latency_ms", VDict [ ("type", VStr "integer"); ("min", VInt 10);
                           ("max", VInt 2000) ]) ].

Definition login_schema : dict :=
  [ ("username", VStr "user_name");
    ("password", VStr "password");
    ("email", VStr "email") ].

Definition employee_schema : dict :=
  [ ("employee_id", VDict [ ("type", VStr "pattern");
                            ("pattern", VStr "EMP-####") ]);
    ("first_name", VStr "first_name");
    ("last_name", VStr "last_name");
    ("email", VStr "company_email");
    ("department", VDict [ ("type", VStr "choice");
                           ("values", VList [ VStr "Engineering"; VStr "QA";
                                              VStr "Product"; VStr "Design";
                                              VStr "HR"; VStr "Finance" ]) ]);
    ("hire_date", VStr "past_date");
    ("salary", VDict [ ("type", VStr "decimal"); ("min", VInt 50000);
                       ("max", VInt 200000); ("precision", VInt 2) ]) ].

(** The built-in templates. *)
Definition TEMPLATES : list (string * dict) :=
  [ ("user", user_schema);
    ("address", address_schema);
    ("payment", payment_schema);
    ("product", product_schema);
    ("order", order_schema);
    ("api_response", api_response_schema);
    ("login", login_schema);
    ("employee", employee_schema) ].

Fixpoint assoc {A : Type} (k : string) (l : list (string * A)) : option A :=
  match l with
  | [] => None
  | (k', a) :: l' => if String.eqb k' k then Some a else assoc k l'
  end.

(** A call [self.fake.method(...)] with positional and keyword arguments. *)
Definition fake_method (self : TestDataGenerator) (method : string)
  (args : list value) (kwargs : dict) : M value :=
  lift_faker (faker_call (fake self) method args kwargs).

(** [self.fake.method().isoformat()] *)
Definition fake_isoformat (self : TestDataGenerator) (method : string)
  : M value :=
  o <- lift_faker (faker_call_obj (fake self) method) ;;
  ret (VStr (obj_isoformat o)).

(** The table from field type to generator function that [__init__]
    builds. *)
Definition _type_map (self : TestDataGenerator) : list (string * M value) :=
  [ ("uuid", o <- lift_env uuid_uuid4 ;; ret (VStr (obj_str o)));
    ("first_name", fake_method self "first_name" [] []);
    ("last_name", fake_method self "last_name" [] []);
    ("name", fake_method self "name" [] []);
    ("user_name", fake_method self "user_name" [] []);
    ("password", fake_method self "password" []
                   [("length", VInt 12); ("special_chars", VBool true)]);
    ("email", fake_method self "email" [] []);
    ("company_email", fake_method self "company_email" [] []);
    ("phone", fake_method self "phone_number" [] []);
    ("street_address", fake_method self "street_address" [] []);
    ("city", fake_method self "city" [] []);
    ("state", fake_method self "state" [] []);
    ("zipcode", fake_method self "zipcode" [] []);
    ("country", fake_method self "country" [] []);
    ("address", fake_method self "address" [] []);
    ("credit_card_number", fake_method self "credit_card_number" [] []);
    ("credit_card_provider", fake_method self "credit_card_provider" [] []);
    ("credit_card_expire", fake_method self "credit_card_expire" [] []);
    ("credit_card_security_code",
       fake_method self "credit_card_security_code" [] []);
    ("datetime", fake_isoformat self "date_time_this_year");
    ("iso8601", o <- lift_env datetime_utcnow ;;
                ret (VStr (obj_isoformat o ++ "Z")));
    ("date", fake_isoformat self "date_this_year");
    ("past_date", fake_isoformat self "past_date");
    ("future_date", fake_isoformat self "future_date");
    ("timestamp", o <- lift_env datetime_utcnow ;;
                  z <- lift_pure (float_trunc (obj_timestamp o)) ;;
                  ret (VInt z));
    ("word", fake_method self "word" [] []);
    ("sentence", fake_method self "sentence" [] []);
    ("paragraph", fake_method self "paragraph" [] []);
    ("text", fake_method self "text" [] [("max_nb_chars", VInt 200)]);
    ("integer", lift_random (random_randint (VInt 1) (VInt 1000)));
    ("boolean", fake_method self "boolean" [] []);
    ("ean13", fake_method self "ean13" [] []);
    ("isbn13", fake_method self "isbn13" [] []);
    ("ipv4", fake_method self "ipv4" [] []);
    ("ipv6", fake_method self "ipv6" [] []);
    ("url", fake_method self "url" [] []);
    ("domain", fake_method self "domain_name" [] []);
    ("mac_address", fake_method self "mac_address" [] []);
    ("company", fake_method self "company" [] []);
    ("job_title", fake_method self "job" [] []) ].

(** [Faker.seed(seed)] *)
Definition Faker_seed (seed : Z) : M unit :=
  fun w => (mkWorld (global_random w) (random_seed seed) (os_env w), Ok tt).

(** [random.seed(seed)] *)
Definition random_seed_global (seed : Z) : M unit :=
  fun w => (mkWorld (random_seed seed) (faker_random w) (os_env w), Ok tt).

(** [TestDataGenerator(locale, seed)] *)
Definition __init__ (locale : string) (seed : option Z) : M TestDataGenerator :=
  fk <- lift_pure (faker_new locale) ;;
  match seed with
  | Some s => Faker_seed s ;;; random_seed_global s
  | None => ret tt
  end ;;;
  ret {| fake := fk |}.

Definition unknown_field_type {A : Type} (v : value) : M A :=
  raise (ValueError ("Unknown field type: " ++ py_str v)).

Definition invalid_field_spec {A : Type} (v : value) : M A :=
  raise (ValueError ("Invalid field specification: " ++ py_str v)).

(** Generate a single field value based on its specification.  The
    recursive call of the [list] case is on [field_spec.get('item')]; it is
    written as a walk down the dictionary so that the recursion is
    structural ([_generate_field_list] below states it in the source's
    form). *)
Fixpoint _generate_field (self : TestDataGenerator) (field_spec : value)
  {struct field_spec} : M value :=
  match field_spec with
  | VStr s =>
      match assoc s (_type_map self) with
      | Some generator => generator
      | None => unknown_field_type field_spec
      end
  | VDict d =>
      let field_type := dict_get d "type" VNone in
      if eq_str field_type "integer" then
        let min_val := dict_get d "min" (VInt 0) in
        let max_val := dict_get d "max" (VInt 100) in
        lift_random (random_randint min_val max_val)
      else if eq_str field_type "decimal" then
        let min_val := dict_get d "min" (VInt 0) in
        let max_val := dict_get d "max" (VInt 100) in
        let precision := dict_get d "precision" (VInt 2) in
        value <- lift_random (random_uniform min_val max_val) ;;
        lift_pure (builtin_round value precision)
      else if eq_str field_type "choice" then
        let values := dict_get d "values" (VList []) in
        if truthy values then lift_random (random_choice values) else ret VNone
      else if eq_str field_type "pattern" then
        let pattern := dict_get d "pattern" (VStr EmptyString) in
        fake_method self "bothify" [pattern] []
      else if eq_str field_type "list" then
        let generate_item :=
          (fix item (d' : dict) : M value :=
             match d' with
             | [] => invalid_field_spec VNone
             | (k, v) :: d'' =>
                 if String.eqb k "item" then _generate_field self v
                 else item d''
             end) d in
        let count := dict_get d "count" (VInt 3) in
        idxs <- lift_result (py_range count) ;;
        items <- list_comp idxs (fun _ => generate_item) ;;
        ret (VList items)
      else unknown_field_type field_type
  | _ => invalid_field_spec field_spec
  end.

(** Generate data from a custom schema. *)
Definition generate_from_schema (self : TestDataGenerator) (schema : dict)
  (count : Z) : M (list dict) :=
  for_loop (range count)
    (fun _ records =>
       record <- for_loop schema
                   (fun item record =>
                      let '(field_name, field_spec) := item in
                      v <- _generate_field self field_spec ;;
                      ret (dict_set record field_name v))
                   [] ;;
       ret (records ++ [record])%list)
    [].

(** Generate data using a built-in template. *)
Definition generate (self : TestDataGenerator) (template_name : string)
  (count : Z) : M (list dict) :=
  match assoc template_name TEMPLATES with
  | None =>
      let available := join ", " (map fst TEMPLATES) in
      raise (ValueError ("Unknown template: " ++ template_name
                           ++ ". Available: " ++ available))
  | Some schema => generate_from_schema self schema count
  end.

(** Return list of available template names. *)
Definition list_templates : list string := map fst TEMPLATES.

(** Return list of available field types. *)
Definition list_field_types (self : TestDataGenerator) : list string :=
  map fst (_type_map self).

(** Return the schema for a specific template. *)
Definition get_template_schema (template_name : string) : Result dict :=
  match assoc template_name TEMPLATES with
  | None => Raise (ValueError ("Unknown template: " ++ template_name))
  | Some schema => Ok schema
  end.

End Generator.

(* ===================================================================== *)
(** ** formatters.py *)

(** The [csv] module, as [CSVFormatter] uses it.  A write yields the text
    it adds to the output stream. *)
Class CsvLibrary {FL : PyFloat} : Type := {
  Writer : Type;
  (** [csv.DictWriter(output, fieldnames=, delimiter=, quoting=QUOTE_MINIMAL)] *)
  csv_DictWriter : list string -> string -> LibResult Writer;
  csv_writeheader : Writer -> LibResult string;
  csv_writerow : Writer -> dict -> LibResult string;
}.

Section Formatters.
Context {FL : PyFloat}.

(* --------------------------------------------------------------------- *)
(** *** class JSONFormatter *)

Record JSONFormatter : Type := {
  indent : Z;
  single_object : bool;
}.

Definition JSONFormatter_format (self : JSONFormatter) (data : list dict)
  : string :=
  if single_object self && Nat.eqb (List.length data) 1
  then json_dumps (Some (indent self)) (VDict (nth 0 data []))
  else json_dumps (Some (indent self)) (VList (map VDict data)).

(* --------------------------------------------------------------------- *)
(** *** class CSVFormatter *)

Record CSVFormatter : Type := {
  delimiter : string;
  include_header : bool;
}.

(** Convert complex values to strings for CSV output. *)
Definition _flatten_value (v : value) : value :=
  match v with
  | VList _ | VDict _ => VStr (json_dumps None v)
  | _ => v
  end.

(** The comprehension [{k: f(v) for k, v in row.items()}]. *)
Definition dict_comp (f : value -> value) (row : dict) : dict :=
  fold_left (fun acc kv => dict_set acc (fst kv) (f (snd kv))) row [].

Definition CSVFormatter_format {C : CsvLibrary} (self : CSVFormatter)
  (data : list dict) : Result string :=
  match data with
  | [] => Ok EmptyString
  | first :: _ =>
      let fieldnames := dict_keys first in
      try writer <- of_lib (csv_DictWriter fieldnames (delimiter self)) in
      try output <- (if include_header self
                     then of_lib (csv_writeheader writer)
                     else Ok EmptyString) in
      try output <- for_loopR data
                      (fun row output =>
                         let flat_row := dict_comp _flatten_value row in
                         try text <- of_lib (csv_writerow writer flat_row) in
                         Ok (output ++ text))
                      output in
      Ok (strip output)
  end.

(* --------------------------------------------------------------------- *)
(** *** class SQLFormatter *)

Record SQLFormatter : Type := {
  table_name : string;
  dialect : string;
}.

(** Quote an identifier based on dialect. *)
Definition _quote_identifier (self : SQLFormatter) (identifier : string)
  : string :=
  if String.eqb (dialect self) "mysql" then "`" ++ identifier ++ "`"
  else if String.eqb (dialect self) "postgresql"
       then String dquote (identifier ++ str1 dquote)
  else identifier.

(** Format a value for SQL insertion. *)
Definition _format_value (v : value) : string :=
  match v with
  | VNone => "NULL"
  | VBool b => if b then "TRUE" else "FALSE"
  | VInt _ | VFloat _ => py_str v
  | VList _ | VDict _ => "'" ++ json_dumps None v ++ "'"
  | VStr _ =>
      let escaped := str_replace "'" "''" (py_str v) in
      "'" ++ escaped ++ "'"
  end.

Definition SQLFormatter_format (self : SQLFormatter) (data : list dict)
  : string :=
  match data with
  | [] => EmptyString
  | first :: _ =>
      let columns := dict_keys first in
      let column_list := join ", " (map (_quote_identifier self) columns) in
      let statements :=
        map (fun row =>
               let values :=
                 map (fun c => _format_value (dict_get row c VNone)) columns in
               let value_list := join ", " values in
               "INSERT INTO " ++ _quote_identifier self (table_name self)
                 ++ " (" ++ column_list ++ ") VALUES (" ++ value_list ++ ");")
            data in
      join (str1 char_lf) statements
  end.

End Formatters.

(* ===================================================================== *)
(** ** A small model of the libraries

    An instance of every interface above, on which the code runs on
    concrete inputs.  Floats are integral, the random generator is a linear
    congruential one, the environment is a counter that every read
    advances, and a provider method answers with its own name and the
    state it was called in. *)

Module Ref.

#[export] Instance ref_float : PyFloat := {|
  float := Z;
  float_repr := fun x => int_str x ++ ".0";
  float_json := fun x => int_str x ++ ".0";
  float_is_zero := fun x => Z.eqb x 0;
|}.

Definition next (r : Z) : Z := (r * 1103515245 + 12345) mod 2147483648.

Definition randint (a b : value) (r : Z) : Z * LibResult value :=
  match a, b with
  | VInt lo, VInt hi =>
      if Z.leb lo hi then (next r, inr (VInt (lo + r mod (hi - lo + 1))))
      else (r, inl "ValueError: empty range for randrange()")
  | _, _ => (r, inl "TypeError: randint() needs integers")
  end.

Definition uniform (a b : value) (r : Z) : Z * LibResult value :=
  match a, b with
  | VInt lo, VInt hi =>
      (next r, inr (VFloat (lo + r mod (Z.abs (hi - lo) + 1))))
  | _, _ => (r, inl "TypeError: uniform() needs numbers")
  end.

Definition choice (v : value) (r : Z) : Z * LibResult value :=
  match v with
  | VList (x :: l) =>
      (next r,
       inr (nth (Z.to_nat (r mod Z.of_nat (List.length (x :: l)))) (x :: l) x))
  | _ => (r, inl "TypeError: choice() needs a non-empty list")
  end.

#[export] Instance ref_library : Library := {|
  Random := Z;
  Env := Z;
  Obj := Z;
  Faker := string;
  random_seed := fun s => s;
  random_randint := randint;
  random_uniform := uniform;
  random_choice := choice;
  builtin_round := fun v _ => inr v;
  float_trunc := fun x => inr x;
  uuid_uuid4 := fun e => (e + 1, e);
  datetime_utcnow := fun e => (e + 1, e);
  obj_str := fun o => "uuid-" ++ int_str o;
  obj_isoformat := fun o => "T" ++ int_str o;
  obj_timestamp := fun o => o;
  faker_new := fun locale => inr locale;
  faker_call := fun _ method _ _ st =>
    ((next (fst st), snd st), inr (VStr (method ++ "-" ++ int_str (fst st))));
  faker_call_obj := fun _ _ st => ((next (fst st), snd st), inr (fst st));
|}.

(** The same libraries with a provider that is out of order: every
    Faker method raises. *)
Definition broken_library : Library := {|
  Random := Z;
  Env := Z;
  Obj := Z;
  Faker := string;
  random_seed := fun s => s;
  random_randint := randint;
  random_uniform := uniform;
  random_choice := choice;
  builtin_round := fun v _ => inr v;
  float_trunc := fun x => inr x;
  uuid_uuid4 := fun e => (e + 1, e);
  datetime_utcnow := fun e => (e + 1, e);
  obj_str := fun o => "uuid-" ++ int_str o;
  obj_isoformat := fun o => "T" ++ int_str o;
  obj_timestamp := fun o => o;
  faker_new := fun locale => inr locale;
  faker_call := fun _ _ _ _ st => (st, inl "RuntimeError: provider out of order");
  faker_call_obj := fun _ _ st => (st, inl "RuntimeError: provider out of order");
|}.

(** A generator object, and the world whose environment is [e]. *)
Definition gen : TestDataGenerator := {| fake := "en_US" |}.
Definition world (e : Z) : World := mkWorld 7 7 e.

(** [world 0] after one draw from the generator of [random]. *)
Definition world_after_draw : World := mkWorld (next 7) 7 0.

Definition broken_gen : @TestDataGenerator ref_float broken_library :=
  @Build_TestDataGenerator ref_float broken_library "en_US".
Definition broken_world : @World ref_float broken_library :=
  @mkWorld ref_float broken_library 7 7 0.

(** Schemas the examples run on. *)
Definition uuid_schema : dict := [ ("id", VStr "uuid") ].
Definition two_field_schema : dict :=
  [ ("id", VStr "uuid"); ("n", VDict [ ("type", VStr "integer") ]) ].
Definition bad_schema : dict := [ ("x", VStr "not_a_type") ].
Definition failing_schema : dict :=
  [ ("a", VDict [ ("type", VStr "integer") ]);
    ("b", VStr "not_a_type");
    ("c", VStr "uuid") ].

End Ref.

(* ===================================================================== *)
(** ** cli.py: the path from a schema to JSON text *)

Section Cli.
Context {FL : PyFloat} {L : Library}.

Notation "x <- c ;; k" := (bind c (fun x => k))
  (at level 61, c at next level, right associativity).

(** [cli.generate] with a custom schema and [--format json]: build the
    generator, generate [count] records, format them. *)
Definition cli_generate_json (locale : string) (seed : option Z)
  (data_schema : dict) (count : Z) (compact : bool) : M string :=
  gen <- __init__ locale seed ;;
  data <- generate_from_schema gen data_schema count ;;
  let formatter :=
    {| indent := if compact then 0 else 2;
       single_object := Z.eqb count 1 |} in
  ret (JSONFormatter_format formatter data).

End Cli.

(* ===================================================================== *)
(** ** Definitions the statements below use *)

Section Contracts.
Context {FL : PyFloat} {L : Library}.

Notation "x <- c ;; k" := (bind c (fun x => k))
  (at level 61, c at next level, right associativity).

(** [random.randint(a, b)]: a random integer N such that a <= N <= b. *)
Definition randint_inclusive : Prop :=
  forall (a b : Z) (r : Random),
    a <= b ->
    exists n, snd (random_randint (VInt a) (VInt b) r) = inr (VInt n)
              /\ a <= n <= b.

(** [random.choice(seq)]: a random element of the non-empty sequence. *)
Definition choice_member : Prop :=
  forall (l : list value) (r : Random),
    l <> [] ->
    exists x, snd (random_choice (VList l) r) = inr x /\ In x l.

(** The structured kinds [_generate_field] dispatches on. *)
Definition recognized_types : list string :=
  [ "integer"; "decimal"; "choice"; "pattern"; "list" ].

Definition is_recognized (field_type : value) : bool :=
  existsb (eq_str field_type) recognized_types.

(** A field specification as the templates use them: a scalar name of the
    generator table, or a mapping whose [type] is recognized. *)
Definition spec_in_tables (self : TestDataGenerator) (spec : value) : bool :=
  match spec with
  | VStr s => existsb (String.eqb s) (list_field_types self)
  | VDict d => is_recognized (dict_get d "type" VNone)
  | _ => false
  end.

(** The same, for the kinds that do not recurse. *)
Definition spec_flat (self : TestDataGenerator) (spec : value) : bool :=
  match spec with
  | VStr s => existsb (String.eqb s) (list_field_types self)
  | VDict d =>
      let t := dict_get d "type" VNone in
      eq_str t "integer" || eq_str t "decimal" || eq_str t "choice"
      || eq_str t "pattern"
  | _ => false
  end.

(** The exception was raised by the generator itself, not by a library. *)
Definition is_own_error (e : exn) : bool :=
  match e with
  | ValueError _ | TypeError _ => true
  | LibraryError _ => false
  end.

(** A computation that can only end with an exception of a library. *)
Definition lib_only {A : Type} (c : M A) : Prop :=
  forall w w' e, c w = (w', Raise e) -> is_own_error e = false.

(** The loop over the fields of one record, as [generate_from_schema]
    writes it. *)
Definition record_loop (self : TestDataGenerator) (fields acc : dict) : M dict :=
  for_loop fields
    (fun item record =>
       let '(field_name, field_spec) := item in
       v <- _generate_field self field_spec ;;
       ret (dict_set record field_name v))
    acc.

(** Section 4.2 of the specification, in its words: for each record,
    iterate the schema fields in their declared order, calling the Field
    Resolver once per field ... *)
Definition resolve_fields (self : TestDataGenerator) (schema : dict)
  : M (list value) :=
  list_comp schema (fun item => _generate_field self (snd item)).

(** ... and assemble the results into one ordered mapping. *)
Definition assemble (schema : dict) (vs : list value) : dict :=
  combine (dict_keys schema) vs.

Definition spec_generate (self : TestDataGenerator) (schema : dict)
  (count : Z) : M (list dict) :=
  list_comp (range count)
    (fun _ => vs <- resolve_fields self schema ;; ret (assemble schema vs)).

(** Every field of the schema resolves, whatever the state. *)
Definition resolves_always (self : TestDataGenerator) (schema : dict) : Prop :=
  forall k spec w,
    In (k, spec) schema ->
    exists w' v, _generate_field self spec w = (w', Ok v).

End Contracts.

(* ===================================================================== *)
(** ** cli.py: the table of the [fields] command *)

(** [field_categories] of [cli.fields]: the field types the command
    prints, by category. *)
Definition field_categories : list (string * list string) :=
  [ ("Identity", [ "uuid"; "first_name"; "last_name"; "name"; "user_name";
                   "password" ]);
    ("Contact", [ "email"; "company_email"; "phone" ]);
    ("Address", [ "street_address"; "city"; "state"; "zipcode"; "country";
                  "address" ]);
    ("Payment", [ "credit_card_number"; "credit_card_provider";
                  "credit_card_expire"; "credit_card_security_code" ]);
    ("Date/Time", [ "datetime"; "iso8601"; "date"; "past_date"; "future_date";
                    "timestamp" ]);
    ("Text", [ "word"; "sentence"; "paragraph"; "text" ]);
    ("Numbers", [ "integer"; "boolean" ]);
    ("Identifiers", [ "ean13"; "isbn13" ]);
    ("Network", [ "ipv4"; "ipv6"; "url"; "domain"; "mac_address" ]);
    ("Company", [ "company"; "job_title" ]) ].

(* ===================================================================== *)
(** ** Further definitions the statements below use *)

(** No string occurs twice in the list. *)
Fixpoint distinctb (l : list string) : bool :=
  match l with
  | [] => true
  | x :: l' => negb (existsb (String.eqb x) l') && distinctb l'
  end.

Section MoreContracts.
Context {FL : PyFloat} {L : Library}.

(** Neither a list nor a mapping. *)
Definition is_scalar (v : value) : bool :=
  match v with
  | VList _ | VDict _ => false
  | _ => true
  end.

(** The field specifications that draw from the [random] module and from
    nothing else: the structured kinds [integer], [decimal] and [choice],
    and the scalar type ["integer"]. *)
Definition random_only (spec : value) : bool :=
  match spec with
  | VStr s => String.eqb s "integer"
  | VDict d =>
      let t := dict_get d "type" VNone in
      eq_str t "integer" || eq_str t "decimal" || eq_str t "choice"
  | _ => false
  end.

(** The result of a computation, and the state of the [random] generator
    it leaves, depend on nothing but the state of the [random] generator
    it starts in. *)
Definition reads_random_only {A : Type} (c : M A) : Prop :=
  forall w1 w2,
    global_random w1 = global_random w2 ->
    snd (c w1) = snd (c w2)
    /\ global_random (fst (c w1)) = global_random (fst (c w2)).

(** A computation leaves the generator of Faker and the environment as
    they are. *)
Definition keeps_faker_and_env {A : Type} (c : M A) : Prop :=
  forall w,
    faker_random (fst (c w)) = faker_random w
    /\ os_env (fst (c w)) = os_env w.

(** The INSERT statement [SQLFormatter.format] writes for one row, given
    the columns of the first record. *)
Definition sql_statement (self : SQLFormatter) (columns : list string)
  (row : dict) : string :=
  "INSERT INTO " ++ _quote_identifier self (table_name self)
    ++ " (" ++ join ", " (map (_quote_identifier self) columns)
    ++ ") VALUES ("
    ++ join ", " (map (fun c => _format_value (dict_get row c VNone)) columns)
    ++ ");".

End MoreContracts.

(** Inputs the examples below run on. *)
Module Samples.
Import Ref.

Definition uuid_list_spec : dict :=
  [ ("type", VStr "list"); ("item", VStr "uuid"); ("count", VInt 5) ].
Definition empty_list_spec : dict :=
  [ ("type", VStr "list"); ("item", VStr "not_a_type"); ("count", VInt 0) ].
Definition bad_item_list_spec : dict :=
  [ ("type", VStr "list"); ("item", VStr "not_a_type") ].
Definition random_schema : dict :=
  [ ("n", VDict [ ("type", VStr "integer"); ("min", VInt 1);
                  ("max", VInt 6) ]);
    ("c", VDict [ ("type", VStr "choice");
                  ("values", VList [ VStr "a"; VStr "b" ]) ]) ].
Definition other_world : World := mkWorld 99 123 456.
Definition first_row : dict := [ ("a", VInt 1); ("b", VNone) ].
Definition wide_row : dict := [ ("a", VInt 2); ("z", VStr "dropped") ].
Definition narrow_row : dict := [ ("b", VNone); ("a", VInt 2) ].
Definition nested_row : dict :=
  [ ("tags", VList [ VStr "x"; VInt 1 ]); ("n", VInt 3) ].

(** A [csv] writer for cells that need no quoting: the cells of a row,
    [None] as the empty cell, joined by the delimiter and ended by the
    line terminator. *)
Definition plain_csv : CsvLibrary := {|
  Writer := (list string * string)%type;
  csv_DictWriter := fun fieldnames delim => inr (fieldnames, delim);
  csv_writeheader := fun writer =>
    inr (join (snd writer) (fst writer) ++ String char_cr (str1 char_lf));
  csv_writerow := fun writer row =>
    inr (join (snd writer)
           (map (fun k => match dict_get row k VNone with
                          | VNone => EmptyString
                          | v => py_str v
                          end) (fst writer))
         ++ String char_cr (str1 char_lf));
|}.

End Samples.

(* ===================================================================== *)
(** * Properties *)

(** ** Dictionaries and the monad *)

Section DictFacts.
Context {FL : PyFloat}.

Lemma dict_get_lookup (d : dict) (k : string) (default v : value) :
  dict_lookup d k = Some v -> dict_get d k default = v.
Proof. unfold dict_get. intros ->. reflexivity. Qed.

Lemma dict_get_missing (d : dict) (k : string) (default : value) :
  dict_lookup d k = None -> dict_get d k default = default.
Proof. unfold dict_get. intros ->. reflexivity. Qed.

Lemma dict_set_fresh (d : dict) (k : string) (v : value) :
  ~ In k (dict_keys d) -> dict_set d k v = (d ++ [(k, v)])%list.
Proof.
  induction d as [|[k' v'] d IH]; simpl; intros Hk.
  - reflexivity.
  - destruct (String.eqb_spec k' k) as [->|Hne].
    + exfalso. apply Hk. now left.
    + rewrite IH; [reflexivity|]. intros Hin. apply Hk. now right.
Qed.

Lemma assoc_none_iff {A : Type} (k : string) (l : list (string * A)) :
  assoc k l = None <-> ~ In k (map fst l).
Proof.
  induction l as [|[k' a] l IH]; simpl.
  - split; [intros _ []|reflexivity].
  - destruct (String.eqb_spec k' k) as [->|Hne].
    + split; [discriminate|]. intros H. exfalso. apply H. now left.
    + rewrite IH. split.
      * intros H [Heq|Hin]; [now apply Hne|now apply H].
      * intros H Hin. apply H. now right.
Qed.

Lemma assoc_in {A : Type} (k : string) (a : A) (l : list (string * A)) :
  assoc k l = Some a -> In (k, a) l.
Proof.
  induction l as [|[k' a'] l IH]; simpl; [discriminate|].
  destruct (String.eqb_spec k' k) as [->|Hne].
  - intros [= ->]. now left.
  - intros H. right. now apply IH.
Qed.

Lemma existsb_eqb_in (s : string) (l : list string) :
  existsb (String.eqb s) l = true <-> In s l.
Proof.
  rewrite existsb_exists. split.
  - intros [x [Hin Heq]]. apply String.eqb_eq in Heq. now subst.
  - intros Hin. exists s. split; [assumption|apply String.eqb_refl].
Qed.

End DictFacts.

(** ** The Field Resolver *)

Section ResolverFacts.
Context {FL : PyFloat} {L : Library}.

Notation "x <- c ;; k" := (bind c (fun x => k))
  (at level 61, c at next level, right associativity).

(** The [list] case in the source's form: [item_spec] is resolved once per
    index of [range(count)]. *)
Lemma _generate_field_list (self : TestDataGenerator) (d : dict) :
  dict_get d "type" VNone = VStr "list" ->
  _generate_field self (VDict d) =
    (let item_spec := dict_get d "item" VNone in
     let count := dict_get d "count" (VInt 3) in
     idxs <- lift_result (py_range count) ;;
     items <- list_comp idxs (fun _ => _generate_field self item_spec) ;;
     ret (VList items)).
Proof.
  intros Ht. cbn [_generate_field]. rewrite Ht. cbn [eq_str String.eqb Ascii.eqb Bool.eqb].
  cbv zeta.
  assert (Hitem :
    (fix item (d' : dict) : M value :=
       match d' with
       | [] => invalid_field_spec VNone
       | (k, v) :: d'' =>
           if String.eqb k "item" then _generate_field self v else item d''
       end) d = _generate_field self (dict_get d "item" VNone)).
  { clear Ht. unfold dict_get. induction d as [|[k v] d IH].
    - reflexivity.
    - cbn [dict_lookup]. destruct (String.eqb k "item"); [reflexivity|exact IH]. }
  rewrite Hitem. reflexivity.
Qed.

(** C6.  Resolving a [choice] specification whose [values] is the empty list, or
    that has no [values] key, returns [None] without an error and without
    touching the state; with [values = [x]] it returns [x]; with any
    non-empty list it returns an element of the list. *)
Theorem choice_resolution (self : TestDataGenerator) (d : dict) (w : World) :
  choice_member ->
  dict_lookup d "type" = Some (VStr "choice") ->
  ((dict_lookup d "values" = Some (VList []) \/ dict_lookup d "values" = None) ->
     _generate_field self (VDict d) w = (w, Ok VNone))
  /\ (forall x, dict_lookup d "values" = Some (VList [x]) ->
        snd (_generate_field self (VDict d) w) = Ok x)
  /\ (forall l, l <> [] -> dict_lookup d "values" = Some (VList l) ->
        exists x, snd (_generate_field self (VDict d) w) = Ok x /\ In x l).
Proof.
  intros Hchoice Ht.
  assert (Hres : forall l, l <> [] -> dict_lookup d "values" = Some (VList l) ->
            exists x, snd (_generate_field self (VDict d) w) = Ok x /\ In x l).
  { intros l Hl Hv. cbn [_generate_field].
    rewrite (dict_get_lookup d "type" VNone _ Ht).
    cbn [eq_str String.eqb Ascii.eqb Bool.eqb]. cbv zeta.
    rewrite (dict_get_lookup d "values" (VList []) _ Hv).
    assert (Htruthy : truthy (VList l) = true)
      by (destruct l; [congruence|reflexivity]).
    rewrite Htruthy. unfold lift_random.
    destruct (Hchoice l (global_random w) Hl) as [x [Hx Hin]].
    destruct (random_choice (VList l) (global_random w)) as [r a].
    simpl in Hx. subst a. exists x. split; [reflexivity|assumption]. }
  split; [|split].
  - intros Hv. cbn [_generate_field].
    rewrite (dict_get_lookup d "type" VNone _ Ht).
    cbn [eq_str String.eqb Ascii.eqb Bool.eqb]. cbv zeta.
    destruct Hv as [Hv|Hv].
    + rewrite (dict_get_lookup d "values" (VList []) _ Hv). reflexivity.
    + rewrite (dict_get_missing d "values" (VList []) Hv). reflexivity.
  - intros x Hv. destruct (Hres [x] ltac:(discriminate) Hv) as [y [Hy Hin]].
    destruct Hin as [->|[]]. exact Hy.
  - exact Hres.
Qed.

(** C8.  Resolving an [integer] specification whose [min] and [max] are the
    integers [a <= b] returns an integer [n] with [a <= n <= b]; an omitted
    [min] counts as 0 and an omitted [max] as 100. *)
Theorem integer_resolution (self : TestDataGenerator) (d : dict) (w : World)
  (omin omax : option Z) :
  randint_inclusive ->
  dict_lookup d "type" = Some (VStr "integer") ->
  dict_lookup d "min" = option_map VInt omin ->
  dict_lookup d "max" = option_map VInt omax ->
  let a := match omin with Some a => a | None => 0 end in
  let b := match omax with Some b => b | None => 100 end in
  a <= b ->
  exists n, snd (_generate_field self (VDict d) w) = Ok (VInt n) /\ a <= n <= b.
Proof.
  intros Hrand Ht Hmin Hmax a b Hab.
  cbn [_generate_field].
  rewrite (dict_get_lookup d "type" VNone _ Ht).
  cbn [eq_str String.eqb Ascii.eqb Bool.eqb]. cbv zeta.
  assert (Ha : dict_get d "min" (VInt 0) = VInt a).
  { unfold dict_get, a. rewrite Hmin. destruct omin; reflexivity. }
  assert (Hb : dict_get d "max" (VInt 100) = VInt b).
  { unfold dict_get, b. rewrite Hmax. destruct omax; reflexivity. }
  rewrite Ha, Hb. unfold lift_random.
  destruct (Hrand a b (global_random w) Hab) as [n [Hn Hbounds]].
  destruct (random_randint (VInt a) (VInt b) (global_random w)) as [r res].
  simpl in Hn. subst res. exists n. split; [reflexivity|assumption].
Qed.

(** C7.  The Field Resolver raises "Unknown field type: <name>" for a string
    that is not a key of the generator table, "Unknown field type: <type>"
    for a mapping whose [type] is not one of the recognized kinds (with
    [None] for a missing [type]), and "Invalid field specification: <spec>"
    for a specification that is neither a string nor a mapping; the two
    messages are never equal. *)
Theorem resolver_errors (self : TestDataGenerator) (w : World) :
  (forall s, ~ In s (list_field_types self) ->
     _generate_field self (VStr s) w
     = (w, Raise (ValueError ("Unknown field type: " ++ s))))
  /\ (forall d, is_recognized (dict_get d "type" VNone) = false ->
        _generate_field self (VDict d) w
        = (w, Raise (ValueError ("Unknown field type: "
                                   ++ py_str (dict_get d "type" VNone)))))
  /\ (forall d, dict_lookup d "type" = None ->
        _generate_field self (VDict d) w
        = (w, Raise (ValueError "Unknown field type: None")))
  /\ (forall spec,
        match spec with VStr _ | VDict _ => False | _ => True end ->
        _generate_field self spec w
        = (w, Raise (ValueError ("Invalid field specification: "
                                   ++ py_str spec))))
  /\ (forall a b, "Unknown field type: " ++ a
                  <> "Invalid field specification: " ++ b).
Proof.
  assert (Hunrec : forall d, is_recognized (dict_get d "type" VNone) = false ->
        _generate_field self (VDict d) w
        = (w, Raise (ValueError ("Unknown field type: "
                                   ++ py_str (dict_get d "type" VNone))))).
  { intros d Hrec. cbn [_generate_field].
    unfold is_recognized, recognized_types in Hrec. cbn [existsb] in Hrec.
    repeat (apply Bool.orb_false_iff in Hrec; destruct Hrec as [?H Hrec]).
    cbv zeta. rewrite H, H0, H1, H2, H3. reflexivity. }
  split; [|split; [|split; [|split]]].
  - intros s Hs. cbn [_generate_field].
    apply (assoc_none_iff s (_type_map self)) in Hs. rewrite Hs. reflexivity.
  - exact Hunrec.
  - intros d Hd. rewrite Hunrec.
    + rewrite (dict_get_missing d "type" VNone Hd). reflexivity.
    + rewrite (dict_get_missing d "type" VNone Hd). reflexivity.
  - intros spec Hspec. destruct spec; try contradiction; reflexivity.
  - intros a b H. discriminate H.
Qed.

End ResolverFacts.

(** ** Loops *)

Section LoopFacts.
Context {FL : PyFloat} {L : Library}.

Notation "x <- c ;; k" := (bind c (fun x => k))
  (at level 61, c at next level, right associativity).

Lemma bind_ok {A B : Type} (c : M A) (k : A -> M B) (w w' : World) (a : A) :
  c w = (w', Ok a) -> bind c k w = k a w'.
Proof. unfold bind. intros ->. reflexivity. Qed.

Lemma bind_raise {A B : Type} (c : M A) (k : A -> M B) (w w' : World) (e : exn) :
  c w = (w', Raise e) -> bind c k w = (w', Raise e).
Proof. unfold bind. intros ->. reflexivity. Qed.

Lemma for_loop_app {A S : Type} (xs ys : list A) (body : A -> S -> M S)
  (acc : S) (w : World) :
  for_loop (xs ++ ys)%list body acc w =
  match for_loop xs body acc w with
  | (w1, Ok acc1) => for_loop ys body acc1 w1
  | (w1, Raise e) => (w1, Raise e)
  end.
Proof.
  revert acc w. induction xs as [|x xs IH]; intros acc w.
  - reflexivity.
  - cbn [app for_loop]. unfold bind.
    destruct (body x acc w) as [w1 [acc1|e]]; [apply IH|reflexivity].
Qed.

Lemma list_comp_length {A B : Type} (xs : list A) (f : A -> M B)
  (w w' : World) (bs : list B) :
  list_comp xs f w = (w', Ok bs) -> List.length bs = List.length xs.
Proof.
  revert w w' bs. induction xs as [|x xs IH]; intros w w' bs; cbn [list_comp].
  - intros [= _ <-]. reflexivity.
  - unfold bind. destruct (f x w) as [w1 [b|e]]; [|discriminate].
    destruct (list_comp xs f w1) as [w2 [bs'|e]] eqn:Hrest; [|discriminate].
    intros [= _ <-]. simpl. f_equal. exact (IH _ _ _ Hrest).
Qed.

Lemma list_comp_forall {A B : Type} (P : B -> Prop) (xs : list A)
  (f : A -> M B) :
  (forall x w w' b, f x w = (w', Ok b) -> P b) ->
  forall w w' bs, list_comp xs f w = (w', Ok bs) -> Forall P bs.
Proof.
  intros Hf. induction xs as [|x xs IH]; intros w w' bs; cbn [list_comp].
  - intros [= _ <-]. constructor.
  - unfold bind. destruct (f x w) as [w1 [b|e]] eqn:Hx; [|discriminate].
    destruct (list_comp xs f w1) as [w2 [bs'|e]] eqn:Hrest; [|discriminate].
    intros [= _ <-]. constructor; [exact (Hf _ _ _ _ Hx)|exact (IH _ _ _ Hrest)].
Qed.

Lemma list_comp_total {A B : Type} (xs : list A) (f : A -> M B) :
  (forall x w, In x xs -> exists w' b, f x w = (w', Ok b)) ->
  forall w, exists w' bs, list_comp xs f w = (w', Ok bs).
Proof.
  induction xs as [|x xs IH]; intros Hf w; cbn [list_comp].
  - exists w, []. reflexivity.
  - destruct (Hf x w (or_introl eq_refl)) as [w1 [b Hb]].
    destruct (IH (fun y w0 Hy => Hf y w0 (or_intror Hy)) w1) as [w2 [bs Hbs]].
    exists w2, (b :: bs). unfold bind. rewrite Hb, Hbs. reflexivity.
Qed.

Lemma generate_from_schema_unfold (self : TestDataGenerator) (schema : dict)
  (count : Z) :
  generate_from_schema self schema count =
  for_loop (range count)
    (fun _ records =>
       record <- record_loop self schema [] ;; ret (records ++ [record])%list)
    [].
Proof. reflexivity. Qed.

(** With distinct keys the record loop appends one pair per field. *)
Lemma record_loop_spec (self : TestDataGenerator) (fields acc : dict) (w : World) :
  NoDup (dict_keys acc ++ dict_keys fields) ->
  record_loop self fields acc w =
  (vs <- resolve_fields self fields ;; ret (acc ++ assemble fields vs)%list) w.
Proof.
  revert acc w. induction fields as [|[k spec] fields IH]; intros acc w Hnd.
  - unfold record_loop, resolve_fields, assemble. cbn. unfold bind, ret. cbn.
    now rewrite app_nil_r.
  - unfold record_loop, resolve_fields. cbn [for_loop list_comp snd].
    fold (record_loop self fields). fold (resolve_fields self fields).
    unfold bind at 1 2 3 4.
    destruct (_generate_field self spec w) as [w1 [v|e]]; [|reflexivity].
    unfold ret at 1.
    rewrite dict_set_fresh.
    2:{ cbn [dict_keys map fst] in Hnd. apply NoDup_remove_2 in Hnd.
        intros Hin. apply Hnd. apply in_or_app. now left. }
    rewrite IH.
    2:{ cbn [dict_keys map fst] in Hnd. unfold dict_keys. rewrite map_app.
        cbn [map fst]. rewrite <- app_assoc. exact Hnd. }
    unfold bind.
    destruct (resolve_fields self fields w1) as [w2 [vs|e]]; [|reflexivity].
    unfold ret, assemble. cbn [dict_keys map fst combine].
    rewrite <- app_assoc. reflexivity.
Qed.

(** Whatever the keys, the record loop succeeds or fails as the sequence
    of resolver calls does, and ends in the same state. *)
Lemma record_loop_outcome (self : TestDataGenerator) (fields acc : dict)
  (w : World) :
  match resolve_fields self fields w with
  | (w', Ok _) => exists record, record_loop self fields acc w = (w', Ok record)
  | (w', Raise e) => record_loop self fields acc w = (w', Raise e)
  end.
Proof.
  revert acc w. induction fields as [|[k spec] fields IH]; intros acc w.
  - cbn. exists acc. reflexivity.
  - unfold record_loop, resolve_fields. cbn [for_loop list_comp snd].
    fold (record_loop self fields). fold (resolve_fields self fields).
    unfold bind.
    destruct (_generate_field self spec w) as [w1 [v|e]]; [|reflexivity].
    unfold ret at 1. specialize (IH (dict_set acc k v) w1).
    destruct (resolve_fields self fields w1) as [w2 [vs|e]]; exact IH.
Qed.

Lemma records_loop_spec {A : Type} (xs : list A) (rec rec' : M dict)
  (acc : list dict) (w : World) :
  (forall w0, rec w0 = rec' w0) ->
  for_loop xs (fun _ records => r <- rec ;; ret (records ++ [r])%list) acc w =
  (rs <- list_comp xs (fun _ => rec') ;; ret (acc ++ rs)%list) w.
Proof.
  intros Hrec. revert acc w. induction xs as [|x xs IH]; intros acc w.
  - cbn. unfold bind, ret. cbn. now rewrite app_nil_r.
  - cbn [for_loop list_comp]. unfold bind in *. rewrite Hrec.
    destruct (rec' w) as [w1 [r|e]]; [|reflexivity].
    unfold ret at 1. rewrite IH.
    destruct (list_comp xs (fun _ => rec') w1) as [w2 [rs|e]]; [|reflexivity].
    unfold ret. rewrite <- app_assoc. reflexivity.
Qed.

Lemma range_length (n : Z) : List.length (range n) = Z.to_nat n.
Proof. unfold range. now rewrite length_map, length_seq. Qed.

Lemma assemble_keys (schema : dict) (vs : list value) :
  List.length vs = List.length schema ->
  dict_keys (assemble schema vs) = dict_keys schema
  /\ map snd (assemble schema vs) = vs.
Proof.
  unfold assemble, dict_keys. revert vs.
  induction schema as [|[k s] schema IH]; intros [|v vs]; cbn; try discriminate.
  - now split.
  - intros [= Hlen]. destruct (IH vs Hlen) as [H1 H2]. now rewrite H1, H2.
Qed.

(** [generate_from_schema] refines the specification's description. *)
Lemma generate_from_schema_refines (self : TestDataGenerator) (schema : dict)
  (count : Z) (w : World) :
  dict_wf schema ->
  generate_from_schema self schema count w = spec_generate self schema count w.
Proof.
  intros Hwf. rewrite generate_from_schema_unfold.
  rewrite (records_loop_spec (range count) (record_loop self schema [])
             (vs <- resolve_fields self schema ;; ret (assemble schema vs))).
  - unfold spec_generate, bind.
    destruct (list_comp (range count) _ w) as [w1 [rs|e]]; reflexivity.
  - intros w0. apply (record_loop_spec self schema [] w0). exact Hwf.
Qed.

End LoopFacts.

(** ** The Schema Generator *)

Section GenerateFacts.
Context {FL : PyFloat} {L : Library}.

Notation "x <- c ;; k" := (bind c (fun x => k))
  (at level 61, c at next level, right associativity).

Lemma range_split (count : Z) (i : nat) :
  (i < Z.to_nat count)%nat ->
  exists rest, range count = (range (Z.of_nat i) ++ Z.of_nat i :: rest)%list.
Proof.
  intros Hi. unfold range. rewrite Nat2Z.id.
  replace (Z.to_nat count) with (i + S (Z.to_nat count - S i))%nat by lia.
  rewrite seq_app, map_app. cbn [seq map Nat.add].
  eexists. reflexivity.
Qed.

(** C2.  For a schema with distinct field names and a count [n >= 0],
    [generate_from_schema] behaves as the specification describes the
    Schema Generator: [n] passes over the fields in declared order, one
    Field Resolver call per field.  For [n = 0] it returns the empty
    sequence; whenever it returns, it returns exactly [n] records, each made
    of the schema's field names in declared order paired with the values of
    one pass of resolver calls; and it does return when every field of the
    schema resolves. *)
Theorem generate_from_schema_records (self : TestDataGenerator) (schema : dict)
  (n : Z) (w : World) :
  dict_wf schema ->
  0 <= n ->
  generate_from_schema self schema n w = spec_generate self schema n w
  /\ (n = 0 -> generate_from_schema self schema n w = (w, Ok []))
  /\ (forall w' records,
        generate_from_schema self schema n w = (w', Ok records) ->
        List.length records = Z.to_nat n
        /\ Forall (fun record =>
                     dict_keys record = dict_keys schema
                     /\ exists w1 w2,
                          resolve_fields self schema w1
                          = (w2, Ok (map snd record)))
                  records)
  /\ (resolves_always self schema ->
      exists w' records,
        generate_from_schema self schema n w = (w', Ok records)
        /\ List.length records = Z.to_nat n).
Proof.
  intros Hwf Hn.
  pose proof (generate_from_schema_refines self schema n w Hwf) as Href.
  split; [exact Href|]. split; [|split].
  - intros ->. reflexivity.
  - intros w' records Hrun. rewrite Href in Hrun. unfold spec_generate in Hrun.
    split.
    + rewrite (list_comp_length _ _ _ _ _ Hrun). apply range_length.
    + refine (list_comp_forall _ _ _ _ _ _ _ Hrun).
      intros _ w1 w2 record. unfold bind.
      destruct (resolve_fields self schema w1) as [w3 [vs|e]] eqn:Hvs;
        [|discriminate].
      intros [= <- <-].
      assert (Hlen : List.length vs = List.length schema)
        by exact (list_comp_length _ _ _ _ _ Hvs).
      destruct (assemble_keys schema vs Hlen) as [Hk Hv].
      split; [exact Hk|]. exists w1, w3. rewrite Hv. exact Hvs.
  - intros Hall.
    assert (Hrec : forall w0, exists w1 vs,
               resolve_fields self schema w0 = (w1, Ok vs)).
    { intros w0. apply list_comp_total. intros [k spec] w1 Hin.
      exact (Hall k spec w1 Hin). }
    destruct (list_comp_total (range n)
                (fun _ => vs <- resolve_fields self schema ;;
                          ret (assemble schema vs))
                (fun _ w0 _ =>
                   match Hrec w0 with
                   | ex_intro _ w1 (ex_intro _ vs Hvs) =>
                       ex_intro _ w1
                         (ex_intro _ (assemble schema vs)
                            (bind_ok _ _ _ _ _ Hvs))
                   end) w) as [w' [records Hrun]].
    exists w', records. rewrite Href. split; [exact Hrun|].
    rewrite (list_comp_length _ _ _ _ _ Hrun). apply range_length.
Qed.

(** C4.  If the first [i] records are generated, the fields before [(k, spec)]
    of the next record resolve, and the resolver then fails on [spec] with
    [e], the call ends with [e] in the state that failing call left: no
    record sequence is returned and nothing further is resolved. *)
Theorem first_failure_propagates (self : TestDataGenerator) (schema : dict)
  (count : Z) (w : World) (i : nat) (pre post : dict) (k : string)
  (spec : value) (w1 w2 w3 : World) (records : list dict) (vs : list value)
  (e : exn) :
  (i < Z.to_nat count)%nat ->
  schema = (pre ++ (k, spec) :: post)%list ->
  generate_from_schema self schema (Z.of_nat i) w = (w1, Ok records) ->
  resolve_fields self pre w1 = (w2, Ok vs) ->
  _generate_field self spec w2 = (w3, Raise e) ->
  generate_from_schema self schema count w = (w3, Raise e).
Proof.
  intros Hi Hschema Hfirst Hpre Hfail.
  rewrite generate_from_schema_unfold in *.
  destruct (range_split count i Hi) as [rest ->].
  rewrite for_loop_app, Hfirst. cbn [for_loop].
  apply bind_raise. apply bind_raise.
  subst schema. unfold record_loop. rewrite for_loop_app.
  fold (record_loop self pre []).
  pose proof (record_loop_outcome self pre [] w1) as Hout.
  rewrite Hpre in Hout. destruct Hout as [partial ->].
  cbn [for_loop]. apply bind_raise. apply bind_raise. exact Hfail.
Qed.

End GenerateFacts.

(** ** The template registry *)

Create HintDb lib_only.

Section TemplateFacts.
Context {FL : PyFloat} {L : Library}.

Notation "x <- c ;; k" := (bind c (fun x => k))
  (at level 61, c at next level, right associativity).

Lemma lib_only_ret {A : Type} (a : A) : lib_only (ret a).
Proof. intros w w' e. unfold ret. discriminate. Qed.

Lemma lib_only_bind {A B : Type} (c : M A) (k : A -> M B) :
  lib_only c -> (forall a, lib_only (k a)) -> lib_only (bind c k).
Proof.
  intros Hc Hk w w' e. unfold bind.
  destruct (c w) as [w1 [a|e1]] eqn:Hcw.
  - apply Hk.
  - intros [= <- <-]. exact (Hc _ _ _ Hcw).
Qed.

Lemma lib_only_lift_pure {A : Type} (r : LibResult A) : lib_only (lift_pure r).
Proof.
  intros w w' e. unfold lift_pure, lift_result.
  destruct r; cbn; [intros [= _ <-]; reflexivity|discriminate].
Qed.

Lemma lib_only_lift_random {A : Type} (f : Random -> Random * LibResult A) :
  lib_only (lift_random f).
Proof.
  intros w w' e. unfold lift_random.
  destruct (f (global_random w)) as [r [msg|a]]; cbn;
    [intros [= _ <-]; reflexivity|discriminate].
Qed.

Lemma lib_only_lift_faker {A : Type}
  (f : Random * Env -> (Random * Env) * LibResult A) :
  lib_only (lift_faker f).
Proof.
  intros w w' e. unfold lift_faker.
  destruct (f (faker_random w, os_env w)) as [[r env] [msg|a]]; cbn;
    [intros [= _ <-]; reflexivity|discriminate].
Qed.

Lemma lib_only_lift_env {A : Type} (f : Env -> Env * A) :
  lib_only (lift_env f).
Proof.
  intros w w' e. unfold lift_env.
  destruct (f (os_env w)) as [env a]. discriminate.
Qed.

Lemma lib_only_fake_method (self : TestDataGenerator) (method : string)
  (args : list value) (kwargs : dict) :
  lib_only (fake_method self method args kwargs).
Proof. apply lib_only_lift_faker. Qed.

Lemma lib_only_fake_isoformat (self : TestDataGenerator) (method : string) :
  lib_only (fake_isoformat self method).
Proof.
  apply lib_only_bind; [apply lib_only_lift_faker|intros; apply lib_only_ret].
Qed.

Hint Resolve lib_only_ret lib_only_lift_pure lib_only_lift_random
  lib_only_lift_faker lib_only_lift_env lib_only_fake_method
  lib_only_fake_isoformat : lib_only.

Lemma lib_only_for_loop {A S : Type} (xs : list A) (body : A -> S -> M S) :
  (forall x acc, In x xs -> lib_only (body x acc)) ->
  forall acc, lib_only (for_loop xs body acc).
Proof.
  induction xs as [|x xs IH]; intros Hbody acc; cbn [for_loop].
  - apply lib_only_ret.
  - apply lib_only_bind.
    + apply Hbody. now left.
    + intros acc'. apply IH. intros y acc0 Hy. apply Hbody. now right.
Qed.

(** No generator of the table raises an exception of the code's own. *)
Lemma type_map_lib_only (self : TestDataGenerator) :
  Forall (fun entry => lib_only (snd entry)) (_type_map self).
Proof.
  unfold _type_map.
  repeat (apply Forall_cons;
          [cbn [snd];
           repeat (first [ solve [auto with lib_only]
                         | apply lib_only_bind; [|intros ?] ])|]).
  apply Forall_nil.
Qed.

(** A scalar name of the table, or a mapping of a kind that does not
    recurse, never fails with the resolver's own errors. *)
Lemma spec_flat_lib_only (self : TestDataGenerator) (spec : value) :
  spec_flat self spec = true -> lib_only (_generate_field self spec).
Proof.
  destruct spec as [| | | |s|l|d]; cbn [spec_flat]; try discriminate.
  - intros Hs. cbn [_generate_field].
    destruct (assoc s (_type_map self)) as [g|] eqn:Hg.
    + apply assoc_in in Hg.
      pose proof (type_map_lib_only self) as Hall.
      rewrite Forall_forall in Hall. exact (Hall _ Hg).
    + apply assoc_none_iff in Hg. apply existsb_eqb_in in Hs.
      contradiction.
  - intros Ht. cbn [_generate_field]. cbv zeta.
    destruct (eq_str (dict_get d "type" VNone) "integer");
      [auto with lib_only|].
    destruct (eq_str (dict_get d "type" VNone) "decimal").
    { apply lib_only_bind; [|intros ?]; auto with lib_only. }
    destruct (eq_str (dict_get d "type" VNone) "choice").
    { destruct (truthy (dict_get d "values" (VList []))); auto with lib_only. }
    destruct (eq_str (dict_get d "type" VNone) "pattern");
      [auto with lib_only|discriminate].
Qed.

Lemma generate_from_schema_lib_only (self : TestDataGenerator) (schema : dict)
  (count : Z) :
  (forall k spec, In (k, spec) schema -> spec_flat self spec = true) ->
  lib_only (generate_from_schema self schema count).
Proof.
  intros Hflat. unfold generate_from_schema.
  apply lib_only_for_loop. intros _ records _.
  apply lib_only_bind; [|intros; apply lib_only_ret].
  apply lib_only_for_loop. intros [k spec] record Hin.
  apply lib_only_bind; [|intros; apply lib_only_ret].
  apply spec_flat_lib_only. exact (Hflat k spec Hin).
Qed.

Lemma templates_flat (self : TestDataGenerator) :
  forallb (fun template =>
             forallb (fun field => spec_flat self (snd field)
                                   && spec_in_tables self (snd field))
                     (snd template))
          TEMPLATES = true.
Proof. vm_compute. reflexivity. Qed.

(** C10.  Every field specification of every built-in template is a scalar name
    of the generator table or a mapping whose [type] is recognized; and for
    a registered template name, [generate] never ends with an error of the
    resolver's own (unknown field type, invalid specification): whatever
    exception it ends with was raised inside a library. *)
Theorem templates_are_valid (self : TestDataGenerator) :
  (forall name schema k spec,
     In (name, schema) TEMPLATES -> In (k, spec) schema ->
     spec_in_tables self spec = true)
  /\ (forall name count w w' e,
        In name list_templates ->
        generate self name count w = (w', Raise e) ->
        exists msg, e = LibraryError msg).
Proof.
  pose proof (templates_flat self) as Hall. rewrite forallb_forall in Hall.
  assert (Hfield : forall name schema k spec,
             In (name, schema) TEMPLATES -> In (k, spec) schema ->
             spec_flat self spec = true /\ spec_in_tables self spec = true).
  { intros name schema k spec Hin Hf. specialize (Hall _ Hin). cbn [snd] in Hall.
    rewrite forallb_forall in Hall. specialize (Hall _ Hf). cbn [snd] in Hall.
    apply andb_true_iff in Hall. exact Hall. }
  split.
  - intros name schema k spec Hin Hf. exact (proj2 (Hfield _ _ _ _ Hin Hf)).
  - intros name count w w' e Hname Hrun. unfold generate in Hrun.
    destruct (assoc name TEMPLATES) as [schema|] eqn:Hschema.
    + apply assoc_in in Hschema.
      assert (Hlib : is_own_error e = false).
      { refine (generate_from_schema_lib_only self schema count _ _ _ _ Hrun).
        intros k spec Hf. exact (proj1 (Hfield _ _ _ _ Hschema Hf)). }
      destruct e; try discriminate. eexists. reflexivity.
    + apply assoc_none_iff in Hschema. contradiction.
Qed.

End TemplateFacts.

(** ** Strings and JSON text *)

Lemma str_app_assoc (a b c : string) : (a ++ b) ++ c = a ++ (b ++ c).
Proof. induction a as [|x a IH]; cbn; [reflexivity|now rewrite IH]. Qed.

(** Replacing the quote by two quotes doubles every quote and leaves the
    other characters. *)
Lemma str_replace_quote (s : string) :
  str_replace "'" "''" s =
  str_flat_map (fun c => if Ascii.eqb c squote then "''" else str1 c) s.
Proof.
  induction s as [|c s IH]; [reflexivity|].
  cbn [str_replace str_flat_map prefix String.length].
  assert (Hskip : forall t,
    (fix skip (n : nat) (t : string) {struct t} : string :=
       match n with
       | 0%nat => str_replace "'" "''" t
       | S n' => match t with
                 | EmptyString => EmptyString
                 | String _ t' => skip n' t'
                 end
       end) 0%nat t = str_replace "'" "''" t) by (intros []; reflexivity).
  assert (Hp : prefix EmptyString s = true) by (destruct s; reflexivity).
  destruct (ascii_dec "'" c) as [<-|Hne].
  - rewrite Hp, Hskip, IH. reflexivity.
  - destruct (Ascii.eqb_spec c squote) as [->|_].
    + exfalso. now apply Hne.
    + rewrite IH. reflexivity.
Qed.

Lemma json_unescape1_escape (c : ascii) (r : string) :
  json_unescape1 (json_escape_char c ++ r) = Some (c, r).
Proof.
  destruct c as [[] [] [] [] [] [] [] []]; reflexivity.
Qed.

Lemma json_body_inj (s1 s2 t1 t2 : string) :
  str_flat_map json_escape_char s1 ++ String dquote t1
  = str_flat_map json_escape_char s2 ++ String dquote t2 ->
  s1 = s2 /\ t1 = t2.
Proof.
  revert s2. induction s1 as [|c1 s1 IH]; intros [|c2 s2]; cbn [str_flat_map].
  - cbn. intros [= ->]. now split.
  - rewrite str_app_assoc. intros H.
    apply (f_equal json_unescape1) in H.
    rewrite json_unescape1_escape in H. discriminate H.
  - rewrite str_app_assoc. intros H.
    apply (f_equal json_unescape1) in H.
    rewrite json_unescape1_escape in H. discriminate H.
  - rewrite !str_app_assoc. intros H.
    apply (f_equal json_unescape1) in H.
    rewrite !json_unescape1_escape in H.
    injection H as -> H. destruct (IH _ H) as [-> ->]. now split.
Qed.

(** ** The formatters *)

Section FormatterFacts.
Context {FL : PyFloat}.

(** C3.  The statement formatter, on the record
    [{name: "O'Brien", active: true, score: null}] with an unquoted dialect
    and table [t], yields the expected INSERT statement; and in general
    [None] becomes NULL, a boolean TRUE or FALSE, a string is put between
    single quotes with every quote of it doubled, and for one record the
    columns and the values follow the record's field order. *)
Theorem sql_format_obrien :
  SQLFormatter_format {| table_name := "t"; dialect := "none" |}
    [ [ ("name", VStr "O'Brien"); ("active", VBool true); ("score", VNone) ] ]
  = "INSERT INTO t (name, active, score) VALUES ('O''Brien', TRUE, NULL);"
  /\ _format_value VNone = "NULL"
  /\ (forall b, _format_value (VBool b) = if b then "TRUE" else "FALSE")
  /\ (forall s,
        _format_value (VStr s)
        = "'" ++ str_flat_map
                   (fun c => if Ascii.eqb c squote then "''" else str1 c) s
              ++ "'")
  /\ (forall table record,
        SQLFormatter_format {| table_name := table; dialect := "none" |}
          [record]
        = "INSERT INTO " ++ table
            ++ " (" ++ join ", " (dict_keys record)
            ++ ") VALUES ("
            ++ join ", " (map (fun c => _format_value (dict_get record c VNone))
                              (dict_keys record))
            ++ ");").
Proof.
  split; [vm_compute; reflexivity|].
  split; [reflexivity|].
  split; [intros []; reflexivity|].
  split.
  - intros s. cbn [_format_value py_str]. now rewrite str_replace_quote.
  - intros table record. unfold SQLFormatter_format.
    cbn [map join String.concat table_name].
    replace (map (_quote_identifier {| table_name := table; dialect := "none" |})
               (dict_keys record)) with (dict_keys record).
    + reflexivity.
    + induction (dict_keys record) as [|c cs IH]; [reflexivity|].
      cbn [map]. rewrite <- IH. reflexivity.
Qed.

(** C9.  On the empty record sequence the tabular formatter and the statement
    formatter return the empty string, whatever the delimiter, the header
    flag, the table name, the dialect and the [csv] library are. *)
Theorem empty_data_formats_empty {C : CsvLibrary} (csv : CSVFormatter)
  (sql : SQLFormatter) :
  CSVFormatter_format csv [] = Ok EmptyString
  /\ SQLFormatter_format sql [] = EmptyString.
Proof. split; reflexivity. Qed.

End FormatterFacts.

(** ** Unknown templates, and what a seed fixes *)

Section RegistryFacts.
Context {FL : PyFloat} {L : Library}.

(** C5.  For a name that is not registered, [get_template_schema] raises
    "Unknown template: <name>" and nothing more, while [generate] raises
    the same message followed by the list of the available names. *)
Theorem unknown_template_errors (name : string) :
  ~ In name list_templates ->
  get_template_schema name
  = Raise (ValueError ("Unknown template: " ++ name))
  /\ (forall self count w,
        generate self name count w
        = (w, Raise (ValueError
                       ("Unknown template: " ++ name
                          ++ ". Available: user, address, payment, product, "
                          ++ "order, api_response, login, employee")))).
Proof.
  intros Hname. apply (assoc_none_iff name TEMPLATES) in Hname.
  split.
  - unfold get_template_schema. rewrite Hname. reflexivity.
  - intros self count w. unfold generate. rewrite Hname. reflexivity.
Qed.

(** What one run of [cli.generate] prints for the schema [{"id": "uuid"}]
    and one record: the JSON object of the UUID the environment yields.
    The seed does not occur in it. *)
Lemma cli_uuid_output (locale : string) (seed : option Z) (compact : bool)
  (fk : Faker) (w : World) :
  faker_new locale = inr fk ->
  snd (cli_generate_json locale seed [("id", VStr "uuid")] 1 compact w)
  = Ok (JSONFormatter_format
          {| indent := if compact then 0 else 2; single_object := true |}
          [ [ ("id", VStr (obj_str (snd (uuid_uuid4 (os_env w))))) ] ]).
Proof.
  intros Hfk.
  unfold cli_generate_json, __init__, generate_from_schema, lift_pure,
    lift_result.
  rewrite Hfk. change (range 1) with [0].
  destruct seed as [s|]; cbn; unfold bind, lift_env; cbn;
    destruct (uuid_uuid4 (os_env w)) as [env o]; reflexivity.
Qed.

(** C1.  Two runs with the same seed, the same schema [{"id": "uuid"}] and the
    same count 1 print different JSON text as soon as the operating system
    hands [uuid.uuid4] different bytes in the two runs: the seed reaches the
    generators of [random] and of Faker, not the source of the [uuid]
    field. *)
Theorem seed_does_not_fix_uuid (locale : string) (seed : Z) (compact : bool)
  (fk : Faker) (w1 w2 : World) :
  faker_new locale = inr fk ->
  obj_str (snd (uuid_uuid4 (os_env w1)))
  <> obj_str (snd (uuid_uuid4 (os_env w2))) ->
  exists out1 out2,
    snd (cli_generate_json locale (Some seed) [("id", VStr "uuid")] 1 compact w1)
    = Ok out1
    /\ snd (cli_generate_json locale (Some seed) [("id", VStr "uuid")] 1
              compact w2)
       = Ok out2
    /\ out1 <> out2.
Proof.
  intros Hfk Hdiff.
  eexists. eexists.
  split; [exact (cli_uuid_output locale (Some seed) compact fk w1 Hfk)|].
  split; [exact (cli_uuid_output locale (Some seed) compact fk w2 Hfk)|].
  intros Heq. apply Hdiff.
  unfold JSONFormatter_format, json_dumps in Heq.
  cbn [single_object indent andb List.length Nat.eqb nth json_encode map
       join String.concat fst snd] in Heq.
  destruct compact; cbn [Z.to_nat Pos.to_nat Pos.iter_op Nat.mul Nat.add
                         spaces append] in Heq.
  - injection Heq as Heq. rewrite !str_app_assoc in Heq.
    exact (proj1 (json_body_inj _ _ _ _ Heq)).
  - injection Heq as Heq. rewrite !str_app_assoc in Heq.
    exact (proj1 (json_body_inj _ _ _ _ Heq)).
Qed.

End RegistryFacts.

(** ** The model of the libraries meets the contracts *)

Lemma ref_randint_inclusive : @randint_inclusive Ref.ref_float Ref.ref_library.
Proof.
  intros a b r Hab. cbn. unfold Ref.randint.
  destruct (Z.leb_spec a b) as [_|Hlt]; [|lia].
  exists (a + r mod (b - a + 1)). split; [reflexivity|].
  pose proof (Z.mod_pos_bound r (b - a + 1) ltac:(lia)). lia.
Qed.

Lemma ref_choice_member : @choice_member Ref.ref_float Ref.ref_library.
Proof.
  intros l r Hl. destruct l as [|x l]; [congruence|].
  cbn [random_choice Ref.ref_library Ref.choice snd].
  eexists. split; [reflexivity|].
  apply nth_In.
  pose proof (Z.mod_pos_bound r (Z.of_nat (List.length (x :: l)))
                ltac:(cbn [List.length]; lia)).
  lia.
Qed.

(** ** Instances on concrete inputs *)

Lemma seed_does_not_fix_uuid_witness :
  exists out1 out2,
    snd (cli_generate_json "en_US" (Some 42) Ref.uuid_schema 1 false
           (Ref.world 0)) = Ok out1
    /\ snd (cli_generate_json "en_US" (Some 42) Ref.uuid_schema 1 false
              (Ref.world 5)) = Ok out2
    /\ out1 <> out2.
Proof.
  apply (@seed_does_not_fix_uuid Ref.ref_float Ref.ref_library "en_US" 42
           false (fake Ref.gen) (Ref.world 0) (Ref.world 5)).
  - reflexivity.
  - vm_compute. discriminate.
Defined.

Lemma generate_from_schema_records_witness :
  dict_wf Ref.two_field_schema
  /\ 0 <= 2
  /\ exists w' records,
       generate_from_schema Ref.gen Ref.two_field_schema 2 (Ref.world 0)
       = (w', Ok records)
       /\ List.length records = 2%nat
       /\ Forall (fun record => dict_keys record = ["id"; "n"]) records.
Proof.
  assert (Hwf : dict_wf Ref.two_field_schema).
  { unfold dict_wf. cbn. repeat constructor; cbn; intuition discriminate. }
  assert (Hn : 0 <= 2) by lia.
  split; [exact Hwf|]. split; [exact Hn|].
  destruct (generate_from_schema_records Ref.gen Ref.two_field_schema 2
              (Ref.world 0) Hwf Hn) as [_ [_ [Hshape Htotal]]].
  destruct Htotal as [w' [records [Hrun Hlen]]].
  - intros k spec w Hin. cbn in Hin.
    destruct Hin as [[= <- <-]|[[= <- <-]|[]]].
    + cbn [_generate_field assoc _type_map String.eqb Ascii.eqb Bool.eqb].
      unfold bind, lift_env, ret. cbn [uuid_uuid4 Ref.ref_library].
      eexists. eexists. reflexivity.
    + cbn [_generate_field dict_get dict_lookup eq_str String.eqb Ascii.eqb
           Bool.eqb].
      unfold lift_random.
      cbn [random_randint Ref.ref_library Ref.randint Z.leb Z.compare].
      eexists. eexists. reflexivity.
  - exists w', records. split; [exact Hrun|]. split; [exact Hlen|].
    destruct (Hshape w' records Hrun) as [_ Hall].
    eapply Forall_impl; [|exact Hall]. cbn. intros record [Hk _]. exact Hk.
Defined.

(** The Field Resolver fails on the only field of [bad_schema], so the
    call returns no record sequence at all, let alone one of [count]
    records. *)
Lemma generate_from_schema_bad_spec :
  ~ (exists w' records,
       generate_from_schema Ref.gen Ref.bad_schema 1 (Ref.world 0)
       = (w', Ok records)
       /\ List.length records = Z.to_nat 1).
Proof.
  assert (H : generate_from_schema Ref.gen Ref.bad_schema 1 (Ref.world 0)
              = (Ref.world 0,
                 Raise (ValueError "Unknown field type: not_a_type")))
    by reflexivity.
  intros [w' [records [Hrun _]]]. rewrite H in Hrun. discriminate Hrun.
Qed.

Lemma first_failure_propagates_witness :
  generate_from_schema Ref.gen Ref.failing_schema 3 (Ref.world 0)
  = (Ref.world_after_draw,
     Raise (ValueError "Unknown field type: not_a_type")).
Proof.
  apply (first_failure_propagates Ref.gen Ref.failing_schema 3 (Ref.world 0)
           0 [ ("a", VDict [ ("type", VStr "integer") ]) ]
           [ ("c", VStr "uuid") ] "b" (VStr "not_a_type")
           (Ref.world 0) Ref.world_after_draw Ref.world_after_draw
           [] [ VInt 7 ]).
  - vm_compute. lia.
  - reflexivity.
  - reflexivity.
  - reflexivity.
  - reflexivity.
Defined.

Lemma unknown_template_errors_witness :
  ~ In "nope" (@list_templates Ref.ref_float)
  /\ @get_template_schema Ref.ref_float "nope"
     = Raise (ValueError "Unknown template: nope").
Proof.
  assert (Hname : ~ In "nope" (@list_templates Ref.ref_float)).
  { exact (proj1 (assoc_none_iff "nope" TEMPLATES) eq_refl). }
  split; [exact Hname|].
  exact (proj1 (@unknown_template_errors Ref.ref_float Ref.ref_library
                  "nope" Hname)).
Defined.

Lemma choice_resolution_witness :
  @choice_member Ref.ref_float Ref.ref_library
  /\ snd (_generate_field Ref.gen
            (VDict [ ("type", VStr "choice"); ("values", VList [ VInt 7 ]) ])
            (Ref.world 0)) = Ok (VInt 7)
  /\ _generate_field Ref.gen
       (VDict [ ("type", VStr "choice"); ("values", VList [] ) ])
       (Ref.world 0) = (Ref.world 0, Ok VNone).
Proof.
  split; [exact ref_choice_member|]. split.
  - exact (proj1 (proj2 (choice_resolution Ref.gen
                           [ ("type", VStr "choice");
                             ("values", VList [ VInt 7 ]) ]
                           (Ref.world 0) ref_choice_member eq_refl))
             (VInt 7) eq_refl).
  - exact (proj1 (choice_resolution Ref.gen
                    [ ("type", VStr "choice"); ("values", VList []) ]
                    (Ref.world 0) ref_choice_member eq_refl)
             (or_introl eq_refl)).
Defined.

Lemma resolver_errors_witness :
  ~ In "not_a_type" (list_field_types Ref.gen)
  /\ _generate_field Ref.gen (VStr "not_a_type") (Ref.world 0)
     = (Ref.world 0, Raise (ValueError "Unknown field type: not_a_type"))
  /\ _generate_field Ref.gen (VDict [ ("type", VStr "tuple") ]) (Ref.world 0)
     = (Ref.world 0, Raise (ValueError "Unknown field type: tuple"))
  /\ _generate_field Ref.gen (VInt 5) (Ref.world 0)
     = (Ref.world 0, Raise (ValueError "Invalid field specification: 5")).
Proof.
  assert (Hname : ~ In "not_a_type" (list_field_types Ref.gen)).
  { exact (proj1 (assoc_none_iff "not_a_type" (_type_map Ref.gen)) eq_refl). }
  destruct (resolver_errors Ref.gen (Ref.world 0))
    as [Hscalar [Hmapping [_ [Hother _]]]].
  split; [exact Hname|]. split; [exact (Hscalar _ Hname)|]. split.
  - exact (Hmapping [ ("type", VStr "tuple") ] eq_refl).
  - exact (Hother (VInt 5) I).
Defined.

Lemma integer_resolution_witness :
  @randint_inclusive Ref.ref_float Ref.ref_library
  /\ 5 <= 100
  /\ exists n,
       snd (_generate_field Ref.gen
              (VDict [ ("type", VStr "integer"); ("min", VInt 5) ])
              (Ref.world 0)) = Ok (VInt n)
       /\ 5 <= n <= 100.
Proof.
  split; [exact ref_randint_inclusive|]. split; [lia|].
  apply (integer_resolution Ref.gen
           [ ("type", VStr "integer"); ("min", VInt 5) ] (Ref.world 0)
           (Some 5) None ref_randint_inclusive eq_refl eq_refl eq_refl).
  cbn. lia.
Defined.

Lemma templates_are_valid_witness :
  In "login" (@list_templates Ref.ref_float)
  /\ @generate Ref.ref_float Ref.broken_library Ref.broken_gen "login" 1
       Ref.broken_world
     = (Ref.broken_world,
        Raise (LibraryError "RuntimeError: provider out of order"))
  /\ exists msg,
       LibraryError "RuntimeError: provider out of order" = LibraryError msg.
Proof.
  assert (Hname : In "login" (@list_templates Ref.ref_float))
    by (cbn; tauto).
  assert (Hrun : @generate Ref.ref_float Ref.broken_library Ref.broken_gen
                   "login" 1 Ref.broken_world
                 = (Ref.broken_world,
                    Raise (LibraryError "RuntimeError: provider out of order")))
    by reflexivity.
  split; [exact Hname|]. split; [exact Hrun|].
  exact (proj2 (@templates_are_valid Ref.ref_float Ref.broken_library
                  Ref.broken_gen) "login" 1 _ _ _ Hname Hrun).
Defined.

(* ===================================================================== *)
(** * Further properties *)

(** ** The [list] kind *)

Section ListKindFacts.
Context {FL : PyFloat} {L : Library}.

Lemma range_nonpositive (n : Z) : n <= 0 -> range n = [].
Proof.
  intros Hn. unfold range. replace (Z.to_nat n) with 0%nat by lia. reflexivity.
Qed.

Lemma range_positive (n : Z) : 1 <= n -> exists rest, range n = 0 :: rest.
Proof.
  intros Hn. destruct (range_split n 0 ltac:(lia)) as [rest Hrest].
  exists rest. exact Hrest.
Qed.

(** X1.  A [list] specification whose [count] is the integer [n] (3 when
    [count] is omitted) and whose [item] specification always resolves
    returns a list of exactly [n] values ([0] for a negative [n]), each of
    them a result of resolving [item]. *)
Theorem list_resolution_length (self : TestDataGenerator) (d : dict)
  (w : World) (ocount : option Z) :
  dict_lookup d "type" = Some (VStr "list") ->
  dict_lookup d "count" = option_map VInt ocount ->
  (forall w0, exists w1 v,
      _generate_field self (dict_get d "item" VNone) w0 = (w1, Ok v)) ->
  let n := match ocount with Some n => n | None => 3 end in
  exists w' items,
    _generate_field self (VDict d) w = (w', Ok (VList items))
    /\ List.length items = Z.to_nat n
    /\ Forall (fun v => exists w1 w2,
                 _generate_field self (dict_get d "item" VNone) w1
                 = (w2, Ok v)) items.
Proof.
  intros Ht Hc Hitem n.
  rewrite (_generate_field_list self d (dict_get_lookup d "type" VNone _ Ht)).
  cbv zeta.
  assert (Hcount : dict_get d "count" (VInt 3) = VInt n).
  { unfold dict_get, n. rewrite Hc. destruct ocount; reflexivity. }
  rewrite Hcount. cbn [py_range].
  destruct (list_comp_total (range n)
              (fun _ => _generate_field self (dict_get d "item" VNone))
              (fun _ w0 _ => Hitem w0) w) as [w' [items Hrun]].
  exists w', items. split; [|split].
  - unfold bind, lift_result, ret. rewrite Hrun. reflexivity.
  - rewrite (list_comp_length _ _ _ _ _ Hrun). apply range_length.
  - refine (list_comp_forall _ _ _ _ _ _ _ Hrun).
    intros _ w1 w2 v Hv. exists w1, w2. exact Hv.
Qed.

(** X2.  The edges of [count]: with an integer [count <= 0] the [list]
    kind returns the empty list and leaves the state alone, whatever
    [item] is, even missing or invalid; with a [count] that is neither an
    integer nor a boolean it raises the [TypeError] of [range] before any
    item is resolved. *)
Theorem list_count_edges (self : TestDataGenerator) (d : dict) (w : World) :
  dict_lookup d "type" = Some (VStr "list") ->
  (forall n, dict_lookup d "count" = Some (VInt n) -> n <= 0 ->
     _generate_field self (VDict d) w = (w, Ok (VList [])))
  /\ (forall v, dict_lookup d "count" = Some v ->
        match v with VInt _ | VBool _ => False | _ => True end ->
        _generate_field self (VDict d) w
        = (w, Raise (TypeError
                       ("'" ++ type_name v
                          ++ "' object cannot be interpreted as an integer")))).
Proof.
  intros Ht.
  pose proof (_generate_field_list self d
                (dict_get_lookup d "type" VNone _ Ht)) as Heq.
  split.
  - intros n Hc Hn. rewrite Heq. cbv zeta.
    rewrite (dict_get_lookup d "count" (VInt 3) _ Hc). cbn [py_range].
    rewrite (range_nonpositive n Hn). reflexivity.
  - intros v Hc Hv. rewrite Heq. cbv zeta.
    rewrite (dict_get_lookup d "count" (VInt 3) _ Hc).
    destruct v; try contradiction; reflexivity.
Qed.

(** X3.  With an integer [count >= 1], a [list] specification fails as
    its [item] fails: the error of the first item, in the state that
    attempt left, and no list.  A missing [item] is the specification
    [None], so the error is "Invalid field specification: None". *)
Theorem list_item_failure (self : TestDataGenerator) (d : dict) (w : World)
  (ocount : option Z) :
  dict_lookup d "type" = Some (VStr "list") ->
  dict_lookup d "count" = option_map VInt ocount ->
  1 <= match ocount with Some n => n | None => 3 end ->
  (forall w' e,
     _generate_field self (dict_get d "item" VNone) w = (w', Raise e) ->
     _generate_field self (VDict d) w = (w', Raise e))
  /\ (dict_lookup d "item" = None ->
      _generate_field self (VDict d) w
      = (w, Raise (ValueError "Invalid field specification: None"))).
Proof.
  intros Ht Hc Hn.
  assert (Hfail : forall w' e,
     _generate_field self (dict_get d "item" VNone) w = (w', Raise e) ->
     _generate_field self (VDict d) w = (w', Raise e)).
  { intros w' e Hitem.
    rewrite (_generate_field_list self d (dict_get_lookup d "type" VNone _ Ht)).
    cbv zeta.
    assert (Hcount : dict_get d "count" (VInt 3)
                     = VInt (match ocount with Some n => n | None => 3 end)).
    { unfold dict_get. rewrite Hc. destruct ocount; reflexivity. }
    rewrite Hcount. cbn [py_range].
    destruct (range_positive _ Hn) as [rest ->].
    unfold bind at 1. unfold lift_result at 1. cbn [list_comp].
    apply bind_raise. apply bind_raise. exact Hitem. }
  split; [exact Hfail|].
  intros Hmissing. apply Hfail.
  rewrite (dict_get_missing d "item" VNone Hmissing). reflexivity.
Qed.

End ListKindFacts.

(** ** Counts, batches and the registry *)

Section BatchFacts.
Context {FL : PyFloat} {L : Library}.

Notation "x <- c ;; k" := (bind c (fun x => k))
  (at level 61, c at next level, right associativity).

(** A loop whose body ignores the element depends on the length only. *)
Lemma for_loop_const {A B S : Type} (xs : list A) (ys : list B)
  (body : S -> M S) (acc : S) (w : World) :
  List.length xs = List.length ys ->
  for_loop xs (fun _ => body) acc w = for_loop ys (fun _ => body) acc w.
Proof.
  revert ys acc w. induction xs as [|x xs IH]; intros [|y ys] acc w;
    cbn [List.length for_loop]; try discriminate; [reflexivity|].
  intros [= Hlen]. unfold bind.
  destruct (body acc w) as [w1 [acc1|e]]; [apply IH; exact Hlen|reflexivity].
Qed.

(** The records loop started with [acc] returns [acc] followed by what it
    returns when started empty. *)
Lemma records_loop_acc {A : Type} (xs : list A) (rec : M dict)
  (acc : list dict) (w : World) :
  for_loop xs (fun _ records => r <- rec ;; ret (records ++ [r])%list) acc w =
  match for_loop xs (fun _ records => r <- rec ;; ret (records ++ [r])%list)
          [] w with
  | (w', Ok rs) => (w', Ok (acc ++ rs)%list)
  | (w', Raise e) => (w', Raise e)
  end.
Proof.
  rewrite (records_loop_spec xs rec rec acc w (fun _ => eq_refl)).
  rewrite (records_loop_spec xs rec rec [] w (fun _ => eq_refl)).
  unfold bind. destruct (list_comp xs (fun _ => rec) w) as [w' [rs|e]];
    reflexivity.
Qed.

(** Whenever it returns, [generate_from_schema] returns one record per
    index of [range(count)], whatever the keys of the schema. *)
Lemma generate_from_schema_length (self : TestDataGenerator) (schema : dict)
  (count : Z) (w w' : World) (records : list dict) :
  generate_from_schema self schema count w = (w', Ok records) ->
  List.length records = Z.to_nat count.
Proof.
  rewrite generate_from_schema_unfold.
  rewrite (records_loop_spec (range count) _ _ [] w (fun _ => eq_refl)).
  unfold bind.
  destruct (list_comp (range count) _ w) as [w1 [rs|e]] eqn:Hrun;
    [|discriminate].
  intros [= _ <-]. cbn [app].
  rewrite (list_comp_length _ _ _ _ _ Hrun). apply range_length.
Qed.

(** X4.  For a count [<= 0], negative counts included,
    [generate_from_schema] returns the empty sequence and leaves the state
    alone: no field is resolved, so even a schema with invalid
    specifications gives no error; [generate] does the same for every
    registered template. *)
Theorem nonpositive_count_generates_nothing (self : TestDataGenerator)
  (count : Z) (w : World) :
  count <= 0 ->
  (forall schema, generate_from_schema self schema count w = (w, Ok []))
  /\ (forall name, In name list_templates ->
        generate self name count w = (w, Ok [])).
Proof.
  intros Hc.
  assert (Hgen : forall schema,
             generate_from_schema self schema count w = (w, Ok [])).
  { intros schema. rewrite generate_from_schema_unfold.
    unfold range. replace (Z.to_nat count) with 0%nat by lia. reflexivity. }
  split; [exact Hgen|].
  intros name Hname. unfold generate.
  destruct (assoc name TEMPLATES) as [schema|] eqn:Hschema; [apply Hgen|].
  apply assoc_none_iff in Hschema. contradiction.
Qed.

(** X5.  Generating [a + b] records is generating [a] records and then
    [b] records from the state the first batch left: the records are the
    two batches in order, and an error of either batch is the error of the
    whole. *)
Theorem generate_from_schema_batches (self : TestDataGenerator) (schema : dict)
  (a b : Z) (w : World) :
  0 <= a -> 0 <= b ->
  generate_from_schema self schema (a + b) w =
  match generate_from_schema self schema a w with
  | (w1, Ok first) =>
      match generate_from_schema self schema b w1 with
      | (w2, Ok second) => (w2, Ok (first ++ second)%list)
      | (w2, Raise e) => (w2, Raise e)
      end
  | (w1, Raise e) => (w1, Raise e)
  end.
Proof.
  intros Ha Hb. rewrite !generate_from_schema_unfold.
  rewrite (for_loop_const (range (a + b)) (range a ++ range b)%list).
  2:{ rewrite length_app, !range_length. lia. }
  rewrite for_loop_app.
  destruct (for_loop (range a) _ [] w) as [w1 [first|e]]; [|reflexivity].
  apply records_loop_acc.
Qed.

End BatchFacts.

(** ** The tables *)

Lemma distinctb_NoDup (l : list string) : distinctb l = true -> NoDup l.
Proof.
  induction l as [|x l IH]; cbn [distinctb]; intros H; [constructor|].
  apply andb_true_iff in H. destruct H as [Hx Hl].
  constructor; [|exact (IH Hl)].
  intros Hin. apply existsb_eqb_in in Hin. rewrite Hin in Hx. discriminate.
Qed.

Section TableFacts.
Context {FL : PyFloat} {L : Library}.

Lemma assoc_some_of_in {A : Type} (k : string) (a : A)
  (l : list (string * A)) :
  NoDup (map fst l) -> In (k, a) l -> assoc k l = Some a.
Proof.
  induction l as [|[k' a'] l IH]; cbn [map fst assoc]; intros Hnd Hin;
    [contradiction|].
  inversion Hnd as [|? ? Hk Hrest]; subst.
  destruct Hin as [[= -> ->]|Hin].
  - now rewrite String.eqb_refl.
  - destruct (String.eqb_spec k' k) as [->|_]; [|exact (IH Hrest Hin)].
    exfalso. apply Hk. change k with (fst (k, a)). now apply in_map.
Qed.

(** X6.  No key occurs twice in the tables the code looks names up in:
    the template names are distinct, the field names of every template are
    distinct, and so are the field types of the generator table.  So no
    entry of the dictionary literals shadows another, and a template is
    found under its name. *)
Theorem tables_have_distinct_keys (self : TestDataGenerator) :
  NoDup list_templates
  /\ (forall name schema, In (name, schema) TEMPLATES -> dict_wf schema)
  /\ NoDup (list_field_types self)
  /\ (forall name schema, In (name, schema) TEMPLATES ->
        get_template_schema name = Ok schema).
Proof.
  assert (Hnames : NoDup (@list_templates FL))
    by (apply distinctb_NoDup; vm_compute; reflexivity).
  split; [exact Hnames|]. split; [|split].
  - intros name schema Hin. unfold dict_wf. apply distinctb_NoDup.
    assert (Hall : forallb (fun t => distinctb (dict_keys (snd t))) TEMPLATES
                   = true) by (vm_compute; reflexivity).
    rewrite forallb_forall in Hall. exact (Hall _ Hin).
  - apply distinctb_NoDup. vm_compute. reflexivity.
  - intros name schema Hin. unfold get_template_schema.
    rewrite (assoc_some_of_in name schema TEMPLATES Hnames Hin). reflexivity.
Qed.

(** What [generate_from_schema] returns for a schema with distinct field
    names. *)
Lemma generate_from_schema_shape (self : TestDataGenerator) (schema : dict)
  (count : Z) (w w' : World) (records : list dict) :
  dict_wf schema ->
  generate_from_schema self schema count w = (w', Ok records) ->
  Forall (fun record => dict_keys record = dict_keys schema) records.
Proof.
  intros Hwf Hrun. rewrite (generate_from_schema_refines _ _ _ _ Hwf) in Hrun.
  unfold spec_generate in Hrun.
  refine (list_comp_forall _ _ _ _ _ _ _ Hrun).
  intros _ w1 w2 record. unfold bind.
  destruct (resolve_fields self schema w1) as [w3 [vs|e]] eqn:Hvs;
    [|discriminate].
  intros [= _ <-].
  exact (proj1 (assemble_keys schema vs (list_comp_length _ _ _ _ _ Hvs))).
Qed.

(** X7.  For a registered template name, [generate] is
    [generate_from_schema] on the schema [get_template_schema] returns, so
    the two ways the command line reaches a template agree; and whenever
    it returns, it returns [count] records ([0] for a negative count), each
    with exactly the field names of the template, in the template's
    order. *)
Theorem generate_uses_template_schema (self : TestDataGenerator)
  (name : string) :
  In name list_templates ->
  exists schema,
    get_template_schema name = Ok schema
    /\ (forall count w,
          generate self name count w
          = generate_from_schema self schema count w)
    /\ (forall count w w' records,
          generate self name count w = (w', Ok records) ->
          List.length records = Z.to_nat count
          /\ Forall (fun record => dict_keys record = dict_keys schema)
               records).
Proof.
  intros Hname. unfold get_template_schema, generate.
  destruct (assoc name TEMPLATES) as [schema|] eqn:Hschema.
  2:{ apply assoc_none_iff in Hschema. contradiction. }
  exists schema. split; [reflexivity|]. split; [reflexivity|].
  intros count w w' records Hrun. split.
  - exact (generate_from_schema_length _ _ _ _ _ _ Hrun).
  - refine (generate_from_schema_shape _ _ _ _ _ _ _ Hrun).
    apply assoc_in in Hschema. unfold dict_wf. apply distinctb_NoDup.
    assert (Hall : forallb (fun t => distinctb (dict_keys (snd t))) TEMPLATES
                   = true) by (vm_compute; reflexivity).
    rewrite forallb_forall in Hall. exact (Hall _ Hschema).
Qed.

(** X8.  The table of the [fields] command lists exactly the field types
    of the generator table, in the table's order; so every field type the
    command prints resolves without the resolver's own errors, and every
    supported field type is printed. *)
Theorem fields_command_lists_type_map (self : TestDataGenerator) :
  concat (map snd field_categories) = list_field_types self
  /\ (forall t w w' e,
        In t (concat (map snd field_categories)) ->
        _generate_field self (VStr t) w = (w', Raise e) ->
        exists msg, e = LibraryError msg).
Proof.
  assert (Heq : concat (map snd field_categories) = list_field_types self)
    by (vm_compute; reflexivity).
  split; [exact Heq|].
  intros t w w' e Hin Hrun. rewrite Heq in Hin.
  assert (Hlib : is_own_error e = false).
  { refine (spec_flat_lib_only self (VStr t) _ _ _ _ Hrun).
    cbn [spec_flat]. apply existsb_eqb_in. exact Hin. }
  destruct e; try discriminate. eexists. reflexivity.
Qed.

End TableFacts.

(** ** What a seed does fix *)

Section SeedFacts.
Context {FL : PyFloat} {L : Library}.

Notation "x <- c ;; k" := (bind c (fun x => k))
  (at level 61, c at next level, right associativity).

Lemma reads_random_only_ret {A : Type} (a : A) : reads_random_only (ret a).
Proof. intros w1 w2 H. split; [reflexivity|exact H]. Qed.

Lemma reads_random_only_raise {A : Type} (e : exn) :
  reads_random_only (@raise FL L A e).
Proof. intros w1 w2 H. split; [reflexivity|exact H]. Qed.

Lemma reads_random_only_bind {A B : Type} (c : M A) (k : A -> M B) :
  reads_random_only c -> (forall a, reads_random_only (k a)) ->
  reads_random_only (bind c k).
Proof.
  intros Hc Hk w1 w2 H. unfold bind.
  destruct (Hc w1 w2 H) as [Hr Hw].
  destruct (c w1) as [w1' r1], (c w2) as [w2' r2]. cbn [fst snd] in Hr, Hw.
  subst r2. destruct r1 as [a|e].
  - exact (Hk a w1' w2' Hw).
  - split; [reflexivity|exact Hw].
Qed.

Lemma reads_random_only_lift_random {A : Type}
  (f : Random -> Random * LibResult A) :
  reads_random_only (lift_random f).
Proof.
  intros w1 w2 H. unfold lift_random. rewrite H.
  destruct (f (global_random w2)) as [r a]. split; reflexivity.
Qed.

Lemma reads_random_only_lift_pure {A : Type} (r : LibResult A) :
  reads_random_only (lift_pure r).
Proof. intros w1 w2 H. split; [reflexivity|exact H]. Qed.

Lemma reads_random_only_for_loop {A S : Type} (xs : list A)
  (body : A -> S -> M S) :
  (forall x acc, In x xs -> reads_random_only (body x acc)) ->
  forall acc, reads_random_only (for_loop xs body acc).
Proof.
  induction xs as [|x xs IH]; intros Hbody acc; cbn [for_loop].
  - apply reads_random_only_ret.
  - apply reads_random_only_bind.
    + apply Hbody. now left.
    + intros acc'. apply IH. intros y acc0 Hy. apply Hbody. now right.
Qed.

(** The kinds [integer], [decimal] and [choice] and the scalar type
    ["integer"] read the generator of [random] and nothing else. *)
Lemma random_only_resolution (self : TestDataGenerator) (spec : value) :
  random_only spec = true -> reads_random_only (_generate_field self spec).
Proof.
  destruct spec as [| | | |s|l|d]; cbn [random_only]; try discriminate.
  - intros Hs. apply String.eqb_eq in Hs. subst s.
    cbn [_generate_field assoc _type_map String.eqb Ascii.eqb Bool.eqb].
    apply reads_random_only_lift_random.
  - intros Ht. cbn [_generate_field]. cbv zeta.
    destruct (eq_str (dict_get d "type" VNone) "integer");
      [apply reads_random_only_lift_random|].
    destruct (eq_str (dict_get d "type" VNone) "decimal").
    { apply reads_random_only_bind;
        [apply reads_random_only_lift_random
        |intros; apply reads_random_only_lift_pure]. }
    destruct (eq_str (dict_get d "type" VNone) "choice"); [|discriminate].
    destruct (truthy (dict_get d "values" (VList [])));
      [apply reads_random_only_lift_random|apply reads_random_only_ret].
Qed.

Lemma random_only_generate (self : TestDataGenerator) (schema : dict)
  (count : Z) :
  (forall k spec, In (k, spec) schema -> random_only spec = true) ->
  reads_random_only (generate_from_schema self schema count).
Proof.
  intros Hall. unfold generate_from_schema.
  apply reads_random_only_for_loop. intros _ records _.
  apply reads_random_only_bind; [|intros; apply reads_random_only_ret].
  apply reads_random_only_for_loop. intros [k spec] record Hin.
  apply reads_random_only_bind; [|intros; apply reads_random_only_ret].
  apply random_only_resolution. exact (Hall k spec Hin).
Qed.

(** The constructor with a seed: both generators are set to the state
    of the seed, the environment is left as it is. *)
Lemma init_seeded (locale : string) (seed : Z) (w : World) :
  __init__ locale (Some seed) w =
  match faker_new locale with
  | inl msg => (w, Raise (LibraryError msg))
  | inr fk =>
      (mkWorld (random_seed seed) (random_seed seed) (os_env w),
       Ok {| fake := fk |})
  end.
Proof.
  unfold __init__, bind, lift_pure, lift_result.
  destruct (faker_new locale); reflexivity.
Qed.

(** X9.  For a schema whose fields are of the kinds [integer], [decimal]
    and [choice] or of the scalar type ["integer"], a seed does fix the
    output: two runs of the command with the same seed, schema and count
    print the same text (or fail with the same error), whatever the
    environment and the earlier state of the generators are. *)
Theorem seed_fixes_random_schemas (locale : string) (seed : Z) (schema : dict)
  (count : Z) (compact : bool) (w1 w2 : World) :
  (forall k spec, In (k, spec) schema -> random_only spec = true) ->
  snd (cli_generate_json locale (Some seed) schema count compact w1)
  = snd (cli_generate_json locale (Some seed) schema count compact w2).
Proof.
  intros Hall. unfold cli_generate_json.
  destruct (faker_new locale) as [msg|fk] eqn:Hfk.
  - pose proof (init_seeded locale seed w1) as H1.
    pose proof (init_seeded locale seed w2) as H2.
    rewrite Hfk in H1, H2.
    rewrite (bind_raise _ _ _ _ _ H1), (bind_raise _ _ _ _ _ H2).
    reflexivity.
  - pose proof (init_seeded locale seed w1) as H1.
    pose proof (init_seeded locale seed w2) as H2.
    rewrite Hfk in H1, H2.
    rewrite (bind_ok _ _ _ _ _ H1), (bind_ok _ _ _ _ _ H2).
    pose proof (random_only_generate {| fake := fk |} schema count Hall
                  (mkWorld (random_seed seed) (random_seed seed) (os_env w1))
                  (mkWorld (random_seed seed) (random_seed seed) (os_env w2))
                  eq_refl) as [Hres _].
    unfold bind.
    destruct (generate_from_schema _ schema count
                (mkWorld (random_seed seed) (random_seed seed) (os_env w1)))
      as [w1' r1].
    destruct (generate_from_schema _ schema count
                (mkWorld (random_seed seed) (random_seed seed) (os_env w2)))
      as [w2' r2].
    cbn [snd] in Hres. subst r2. destruct r1; reflexivity.
Qed.

End SeedFacts.

Section FrameFacts.
Context {FL : PyFloat} {L : Library}.

Lemma keeps_ret {A : Type} (a : A) : keeps_faker_and_env (ret a).
Proof. intros w. split; reflexivity. Qed.

Lemma keeps_bind {A B : Type} (c : M A) (k : A -> M B) :
  keeps_faker_and_env c -> (forall a, keeps_faker_and_env (k a)) ->
  keeps_faker_and_env (bind c k).
Proof.
  intros Hc Hk w. unfold bind. destruct (Hc w) as [Hf He].
  destruct (c w) as [w1 [a|e]]; cbn [fst] in *.
  - destruct (Hk a w1) as [Hf1 He1]. split; congruence.
  - split; assumption.
Qed.

Lemma keeps_lift_random {A : Type} (f : Random -> Random * LibResult A) :
  keeps_faker_and_env (lift_random f).
Proof.
  intros w. unfold lift_random. destruct (f (global_random w)) as [r a].
  split; reflexivity.
Qed.

Lemma keeps_lift_pure {A : Type} (r : LibResult A) :
  keeps_faker_and_env (lift_pure r).
Proof. intros w. split; reflexivity. Qed.

Lemma keeps_for_loop {A S : Type} (xs : list A) (body : A -> S -> M S) :
  (forall x acc, In x xs -> keeps_faker_and_env (body x acc)) ->
  forall acc, keeps_faker_and_env (for_loop xs body acc).
Proof.
  induction xs as [|x xs IH]; intros Hbody acc; cbn [for_loop].
  - apply keeps_ret.
  - apply keeps_bind.
    + apply Hbody. now left.
    + intros acc'. apply IH. intros y acc0 Hy. apply Hbody. now right.
Qed.

Lemma random_only_keeps (self : TestDataGenerator) (spec : value) :
  random_only spec = true -> keeps_faker_and_env (_generate_field self spec).
Proof.
  destruct spec as [| | | |s|l|d]; cbn [random_only]; try discriminate.
  - intros Hs. apply String.eqb_eq in Hs. subst s.
    cbn [_generate_field assoc _type_map String.eqb Ascii.eqb Bool.eqb].
    apply keeps_lift_random.
  - intros Ht. cbn [_generate_field]. cbv zeta.
    destruct (eq_str (dict_get d "type" VNone) "integer");
      [apply keeps_lift_random|].
    destruct (eq_str (dict_get d "type" VNone) "decimal").
    { apply keeps_bind; [apply keeps_lift_random|intros; apply keeps_lift_pure]. }
    destruct (eq_str (dict_get d "type" VNone) "choice"); [|discriminate].
    destruct (truthy (dict_get d "values" (VList [])));
      [apply keeps_lift_random|apply keeps_ret].
Qed.

(** X15.  Generating records from a schema whose fields are of the kinds
    [integer], [decimal] and [choice] or of the scalar type ["integer"]
    never advances the generator of Faker and never reads the environment:
    both are, after the call, what they were before it, whether the call
    returns or fails. *)
Theorem random_schemas_keep_faker_and_env (self : TestDataGenerator)
  (schema : dict) (count : Z) (w : World) :
  (forall k spec, In (k, spec) schema -> random_only spec = true) ->
  faker_random (fst (generate_from_schema self schema count w))
  = faker_random w
  /\ os_env (fst (generate_from_schema self schema count w)) = os_env w.
Proof.
  intros Hall. revert w. unfold generate_from_schema.
  apply keeps_for_loop. intros _ records _.
  apply keeps_bind; [|intros; apply keeps_ret].
  apply keeps_for_loop. intros [k spec] record Hin.
  apply keeps_bind; [|intros; apply keeps_ret].
  apply random_only_keeps. exact (Hall k spec Hin).
Qed.

End FrameFacts.

(** ** More on the formatters *)

Lemma str_app_inv_tail (a b : string) (c : ascii) :
  a ++ str1 c = b ++ str1 c -> a = b.
Proof.
  revert b. induction a as [|x a IH]; intros [|y b]; cbn.
  - reflexivity.
  - intros [= _ H]. destruct b; discriminate H.
  - intros [= _ H]. destruct a; discriminate H.
  - intros [= -> H]. f_equal. exact (IH _ H).
Qed.

(** Halving the doubled quotes gives the string back. *)
Lemma str_replace_quote_inverse (s : string) :
  str_replace "''" "'" (str_replace "'" "''" s) = s.
Proof.
  rewrite str_replace_quote.
  assert (Hskip : forall t,
    (fix skip (n : nat) (t : string) {struct t} : string :=
       match n with
       | 0%nat => str_replace "''" "'" t
       | S n' => match t with
                 | EmptyString => EmptyString
                 | String _ t' => skip n' t'
                 end
       end) 0%nat t = str_replace "''" "'" t) by (intros []; reflexivity).
  induction s as [|c s IH]; [reflexivity|].
  cbn [str_flat_map].
  destruct (Ascii.eqb_spec c squote) as [->|Hne].
  - cbn [append str_replace prefix String.length].
    destruct (ascii_dec "'" "'") as [_|Hn]; [|now exfalso; apply Hn].
    set (rest := str_flat_map _ s) in *.
    assert (Hp : prefix (String "'" EmptyString) (String squote rest) = true).
    { cbn [prefix squote]. destruct (ascii_dec "'" "'") as [_|Hn];
        [|now exfalso; apply Hn]. destruct rest; reflexivity. }
    cbn [prefix]. destruct (ascii_dec "'" squote) as [_|Hn];
      [|now exfalso; apply Hn].
    replace (prefix EmptyString rest) with true by (destruct rest; reflexivity).
    cbn [append]. rewrite Hskip, IH. reflexivity.
  - cbn [append str1 str_replace prefix].
    destruct (ascii_dec "'" c) as [Heq|_].
    + exfalso. apply Hne. now rewrite <- Heq.
    + rewrite IH. reflexivity.
Qed.

Section MoreFormatterFacts.
Context {FL : PyFloat}.

(** X10.  The statement formatter loses nothing of a string: different
    strings get different literals.  The text between the enclosing quotes
    is the string with every quote doubled, and halving the doubled quotes
    gives the string back. *)
Theorem sql_string_literal_injective (s1 s2 : string) :
  _format_value (VStr s1) = _format_value (VStr s2) -> s1 = s2.
Proof.
  cbn [_format_value py_str append]. intros [= H].
  apply str_app_inv_tail in H.
  apply (f_equal (str_replace "''" "'")) in H.
  now rewrite !str_replace_quote_inverse in H.
Qed.

Lemma sql_format_statements (self : SQLFormatter) (first : dict)
  (rest : list dict) :
  SQLFormatter_format self (first :: rest)
  = join (str1 char_lf)
      (map (sql_statement self (dict_keys first)) (first :: rest)).
Proof. reflexivity. Qed.

(** X11.  The statement formatter takes its columns from the first record
    and from nothing else: a record is written by the values it has under
    those columns, with NULL for a column it lacks.  So two records that
    agree on the columns of the first record give the same output, whatever
    other keys they have and in whatever order. *)
Theorem sql_columns_from_first_record (self : SQLFormatter) (first : dict)
  (before after : list dict) (row1 row2 : dict) :
  (forall c, In c (dict_keys first) ->
     dict_get row1 c VNone = dict_get row2 c VNone) ->
  SQLFormatter_format self (first :: before ++ row1 :: after)
  = SQLFormatter_format self (first :: before ++ row2 :: after).
Proof.
  intros Hagree. rewrite !sql_format_statements. f_equal.
  cbn [map]. f_equal. rewrite !map_app. cbn [map]. f_equal. f_equal.
  unfold sql_statement. do 7 f_equal.
  apply map_ext_in. intros c Hc. now rewrite (Hagree c Hc).
Qed.

Lemma rstrip_cons (c : ascii) (s : string) :
  rstrip (String c s) =
  match rstrip s with
  | EmptyString => if is_space c then EmptyString else str1 c
  | r => String c r
  end.
Proof. reflexivity. Qed.

Lemma rstrip_idempotent (s : string) : rstrip (rstrip s) = rstrip s.
Proof.
  induction s as [|c s IH]; [reflexivity|].
  rewrite (rstrip_cons c s). destruct (rstrip s) as [|x r] eqn:Hr.
  - destruct (is_space c) eqn:Hc; [reflexivity|].
    unfold str1. rewrite rstrip_cons. cbn [rstrip]. now rewrite Hc.
  - rewrite rstrip_cons, IH. reflexivity.
Qed.

Lemma rstrip_keeps_head (c : ascii) (s : string) :
  is_space c = false -> exists t, rstrip (String c s) = String c t.
Proof.
  intros Hc. rewrite rstrip_cons. destruct (rstrip s) as [|x r].
  - rewrite Hc. now exists EmptyString.
  - now exists (String x r).
Qed.

Lemma lstrip_head (s : string) :
  lstrip s = EmptyString
  \/ exists c t, lstrip s = String c t /\ is_space c = false.
Proof.
  induction s as [|c s IH]; [now left|].
  cbn [lstrip]. destruct (is_space c) eqn:Hc; [exact IH|].
  right. now exists c, s.
Qed.

Lemma strip_idempotent (s : string) : strip (strip s) = strip s.
Proof.
  unfold strip. destruct (lstrip_head s) as [->|[c [t [-> Hc]]]];
    [reflexivity|].
  destruct (rstrip_keeps_head c t Hc) as [t' Ht'].
  rewrite Ht' at 1. cbn [lstrip]. rewrite Hc, <- Ht'.
  apply rstrip_idempotent.
Qed.

(** X12.  Whatever the tabular formatter returns has no white space at
    either end: the line terminator after the last row is cut off, and so
    is any white space the first line starts with or the last line ends
    with. *)
Theorem csv_output_is_stripped {C : CsvLibrary} (self : CSVFormatter)
  (data : list dict) (out : string) :
  CSVFormatter_format self data = Ok out -> strip out = out.
Proof.
  unfold CSVFormatter_format. destruct data as [|first rest].
  - intros [= <-]. reflexivity.
  - cbv zeta. unfold bindR at 1.
    destruct (of_lib (csv_DictWriter _ _)) as [writer|e]; [|discriminate].
    unfold bindR at 1.
    destruct (if include_header self then _ else _) as [header|e];
      [|discriminate].
    unfold bindR at 1.
    destruct (for_loopR _ _ header) as [output|e]; [|discriminate].
    intros [= <-]. apply strip_idempotent.
Qed.

Lemma dict_comp_map (f : value -> value) (row acc : dict) :
  NoDup (dict_keys acc ++ dict_keys row) ->
  fold_left (fun acc kv => dict_set acc (fst kv) (f (snd kv))) row acc
  = (acc ++ map (fun kv => (fst kv, f (snd kv))) row)%list.
Proof.
  revert acc. induction row as [|[k v] row IH]; intros acc Hnd; cbn [fold_left map].
  - now rewrite app_nil_r.
  - cbn [fst snd]. rewrite dict_set_fresh.
    2:{ cbn [dict_keys map fst] in Hnd. apply NoDup_remove_2 in Hnd.
        intros Hin. apply Hnd. apply in_or_app. now left. }
    rewrite IH.
    + now rewrite <- app_assoc.
    + cbn [dict_keys map fst] in Hnd. unfold dict_keys. rewrite map_app.
      cbn [map fst]. rewrite <- app_assoc. exact Hnd.
Qed.

(** X13.  Flattening a row for the tabular formatter keeps the field
    names and their order, turns every list and mapping into one string
    (its JSON text) and leaves every other value as it is; so every cell
    handed to the writer is neither a list nor a mapping. *)
Theorem csv_flat_row (row : dict) :
  dict_wf row ->
  dict_keys (dict_comp _flatten_value row) = dict_keys row
  /\ Forall (fun kv => is_scalar (snd kv) = true)
       (dict_comp _flatten_value row)
  /\ (forall k v, dict_lookup row k = Some v ->
        dict_lookup (dict_comp _flatten_value row) k
        = Some (if is_scalar v then v else VStr (json_dumps None v))).
Proof.
  intros Hwf. unfold dict_comp.
  rewrite (dict_comp_map _flatten_value row [] Hwf). cbn [app].
  split; [|split].
  - unfold dict_keys. rewrite map_map. reflexivity.
  - apply Forall_forall. intros kv Hin. apply in_map_iff in Hin.
    destruct Hin as [[k v] [<- _]]. destruct v; reflexivity.
  - clear Hwf. induction row as [|[k' v'] row IH]; intros k v; cbn [dict_lookup map fst snd].
    + discriminate.
    + destruct (String.eqb k' k); [|apply IH].
      intros [= ->]. destruct v; reflexivity.
Qed.

End MoreFormatterFacts.

Section CliFacts.
Context {FL : PyFloat} {L : Library}.

(** X14.  What the command prints as JSON is one object, text that
    starts with [{], exactly when the count is 1, and an array, text that
    starts with [[], for every other count; for a count [<= 0] it is the
    empty array. *)
Theorem cli_json_object_iff_one (locale : string) (seed : option Z)
  (schema : dict) (count : Z) (compact : bool) (w : World) (out : string) :
  snd (cli_generate_json locale seed schema count compact w) = Ok out ->
  (count = 1 -> exists rest, out = String "{" rest)
  /\ (count <> 1 -> exists rest, out = String "[" rest)
  /\ (count <= 0 -> out = "[]").
Proof.
  unfold cli_generate_json. unfold bind at 1.
  destruct (__init__ locale seed w) as [w0 [self|e]]; [|discriminate].
  unfold bind.
  destruct (generate_from_schema self schema count w0) as [w1 [data|e]] eqn:Hrun;
    [|discriminate].
  pose proof (generate_from_schema_length _ _ _ _ _ _ Hrun) as Hlen.
  unfold ret. cbn [snd]. intros [= <-].
  unfold JSONFormatter_format, json_dumps. cbn [single_object indent].
  split; [|split].
  - intros ->. destruct data as [|r [|r' data]]; try discriminate Hlen.
    cbn [Z.eqb Pos.eqb andb List.length Nat.eqb nth json_encode].
    destruct r; eexists; reflexivity.
  - intros Hne. destruct (Z.eqb_spec count 1) as [->|_]; [contradiction|].
    cbn [andb json_encode]. destruct (map VDict data); eexists; reflexivity.
  - intros Hneg. destruct (Z.eqb_spec count 1) as [->|_]; [lia|].
    destruct data; [reflexivity|]. cbn [List.length] in Hlen. lia.
Qed.

End CliFacts.

(** ** Further instances on concrete inputs *)

Lemma list_resolution_length_witness :
  exists w' items,
    _generate_field Ref.gen (VDict Samples.uuid_list_spec) (Ref.world 0)
    = (w', Ok (VList items))
    /\ List.length items = 5%nat.
Proof.
  destruct (list_resolution_length Ref.gen Samples.uuid_list_spec (Ref.world 0)
              (Some 5) eq_refl eq_refl) as [w' [items [Hrun [Hlen _]]]].
  - intros w0.
    cbn [dict_get dict_lookup Samples.uuid_list_spec _generate_field assoc
         _type_map String.eqb Ascii.eqb Bool.eqb].
    unfold bind, lift_env, ret. cbn [uuid_uuid4 Ref.ref_library].
    eexists. eexists. reflexivity.
  - exists w', items. split; [exact Hrun|exact Hlen].
Defined.

Lemma list_count_edges_witness :
  _generate_field Ref.gen (VDict Samples.empty_list_spec) (Ref.world 0)
  = (Ref.world 0, Ok (VList [])).
Proof.
  apply (proj1 (list_count_edges Ref.gen Samples.empty_list_spec (Ref.world 0)
                  eq_refl) 0 eq_refl).
  lia.
Defined.

Lemma list_item_failure_witness :
  _generate_field Ref.gen (VDict Samples.bad_item_list_spec) (Ref.world 0)
  = (Ref.world 0, Raise (ValueError "Unknown field type: not_a_type")).
Proof.
  apply (proj1 (list_item_failure Ref.gen Samples.bad_item_list_spec
                  (Ref.world 0) None eq_refl eq_refl ltac:(lia))).
  reflexivity.
Defined.

Lemma nonpositive_count_generates_nothing_witness :
  generate_from_schema Ref.gen Ref.bad_schema (-2) (Ref.world 0)
  = (Ref.world 0, Ok []).
Proof.
  apply (proj1 (nonpositive_count_generates_nothing Ref.gen (-2) (Ref.world 0)
                  ltac:(lia))).
Defined.

Lemma generate_from_schema_batches_witness :
  0 <= 1 /\ 0 <= 2
  /\ generate_from_schema Ref.gen Ref.two_field_schema (1 + 2) (Ref.world 0) =
     match generate_from_schema Ref.gen Ref.two_field_schema 1 (Ref.world 0)
     with
     | (w1, Ok first) =>
         match generate_from_schema Ref.gen Ref.two_field_schema 2 w1 with
         | (w2, Ok second) => (w2, Ok (first ++ second)%list)
         | (w2, Raise e) => (w2, Raise e)
         end
     | (w1, Raise e) => (w1, Raise e)
     end.
Proof.
  split; [lia|]. split; [lia|].
  apply (generate_from_schema_batches Ref.gen Ref.two_field_schema 1 2
           (Ref.world 0)); lia.
Defined.

Lemma tables_have_distinct_keys_witness :
  @get_template_schema Ref.ref_float "order" = Ok order_schema.
Proof.
  apply (proj2 (proj2 (proj2 (tables_have_distinct_keys Ref.gen)))).
  cbn. tauto.
Defined.

Lemma generate_uses_template_schema_witness :
  In "api_response" (@list_templates Ref.ref_float)
  /\ exists schema,
       get_template_schema "api_response" = Ok schema
       /\ (forall count w,
             generate Ref.gen "api_response" count w
             = generate_from_schema Ref.gen schema count w)
       /\ (forall count w w' records,
             generate Ref.gen "api_response" count w = (w', Ok records) ->
             List.length records = Z.to_nat count
             /\ Forall (fun record => dict_keys record = dict_keys schema)
                  records).
Proof.
  assert (Hname : In "api_response" (@list_templates Ref.ref_float))
    by (cbn; tauto).
  split; [exact Hname|].
  exact (generate_uses_template_schema Ref.gen "api_response" Hname).
Defined.

Lemma fields_command_lists_type_map_witness :
  In "email" (concat (map snd field_categories))
  /\ @_generate_field Ref.ref_float Ref.broken_library Ref.broken_gen
       (VStr "email") Ref.broken_world
     = (Ref.broken_world,
        Raise (LibraryError "RuntimeError: provider out of order"))
  /\ exists msg,
       LibraryError "RuntimeError: provider out of order" = LibraryError msg.
Proof.
  assert (Hin : In "email" (concat (map snd field_categories)))
    by (cbn; tauto).
  assert (Hrun : @_generate_field Ref.ref_float Ref.broken_library
                   Ref.broken_gen (VStr "email") Ref.broken_world
                 = (Ref.broken_world,
                    Raise (LibraryError "RuntimeError: provider out of order")))
    by reflexivity.
  split; [exact Hin|]. split; [exact Hrun|].
  exact (proj2 (@fields_command_lists_type_map Ref.ref_float
                  Ref.broken_library Ref.broken_gen)
           "email" _ _ _ Hin Hrun).
Defined.

Lemma seed_fixes_random_schemas_witness :
  snd (cli_generate_json "en_US" (Some 42) Samples.random_schema 3 false
         (Ref.world 0))
  = snd (cli_generate_json "en_US" (Some 42) Samples.random_schema 3 false
           Samples.other_world).
Proof.
  apply (seed_fixes_random_schemas "en_US" 42 Samples.random_schema 3 false
           (Ref.world 0) Samples.other_world).
  intros k spec Hin. cbn in Hin.
  destruct Hin as [[= <- <-]|[[= <- <-]|[]]]; reflexivity.
Defined.

Lemma sql_string_literal_injective_witness :
  @_format_value Ref.ref_float (VStr "it's")
  = @_format_value Ref.ref_float (VStr "it's")
  /\ "it's" = "it's".
Proof.
  split; [reflexivity|].
  exact (@sql_string_literal_injective Ref.ref_float "it's" "it's" eq_refl).
Defined.

Lemma sql_columns_from_first_record_witness :
  @SQLFormatter_format Ref.ref_float
    {| table_name := "t"; dialect := "mysql" |}
    [ Samples.first_row; Samples.wide_row ]
  = @SQLFormatter_format Ref.ref_float
      {| table_name := "t"; dialect := "mysql" |}
      [ Samples.first_row; Samples.narrow_row ].
Proof.
  apply (@sql_columns_from_first_record Ref.ref_float
           {| table_name := "t"; dialect := "mysql" |}
           Samples.first_row [] [] Samples.wide_row Samples.narrow_row).
  intros c Hc. cbn in Hc. destruct Hc as [<-|[<-|[]]]; reflexivity.
Defined.

Lemma csv_output_is_stripped_witness :
  @CSVFormatter_format Ref.ref_float Samples.plain_csv
    {| delimiter := ","; include_header := true |} [ Samples.first_row ]
  = Ok (String "a" (String "," (String "b" (String char_cr (String char_lf
         (String "1" (String "," EmptyString)))))))
  /\ strip (String "a" (String "," (String "b" (String char_cr (String char_lf
         (String "1" (String "," EmptyString)))))))
     = String "a" (String "," (String "b" (String char_cr (String char_lf
         (String "1" (String "," EmptyString)))))).
Proof.
  assert (Hrun : @CSVFormatter_format Ref.ref_float Samples.plain_csv
                   {| delimiter := ","; include_header := true |}
                   [ Samples.first_row ]
                 = Ok (String "a" (String "," (String "b" (String char_cr
                        (String char_lf (String "1" (String "," EmptyString))))))))
    by reflexivity.
  split; [exact Hrun|].
  exact (@csv_output_is_stripped Ref.ref_float Samples.plain_csv _ _ _ Hrun).
Defined.

Lemma csv_flat_row_witness :
  dict_wf Samples.nested_row
  /\ dict_keys (dict_comp _flatten_value Samples.nested_row) = [ "tags"; "n" ].
Proof.
  assert (Hwf : dict_wf Samples.nested_row).
  { unfold dict_wf. apply distinctb_NoDup. reflexivity. }
  split; [exact Hwf|].
  exact (proj1 (@csv_flat_row Ref.ref_float Samples.nested_row Hwf)).
Defined.

Lemma cli_json_object_iff_one_witness :
  exists out rest,
    snd (cli_generate_json "en_US" (Some 42) Ref.uuid_schema 1 false
           (Ref.world 0)) = Ok out
    /\ out = String "{" rest.
Proof.
  pose proof (cli_uuid_output "en_US" (Some 42) false (fake Ref.gen)
                (Ref.world 0) eq_refl) as Hrun.
  destruct (proj1 (cli_json_object_iff_one "en_US" (Some 42) Ref.uuid_schema 1
                     false (Ref.world 0) _ Hrun) eq_refl) as [rest Hrest].
  eexists. exists rest. split; [exact Hrun|exact Hrest].
Defined.

Lemma random_schemas_keep_faker_and_env_witness :
  faker_random
    (fst (generate_from_schema Ref.gen Samples.random_schema 3
            Samples.other_world)) = 123
  /\ os_env
       (fst (generate_from_schema Ref.gen Samples.random_schema 3
               Samples.other_world)) = 456.
Proof.
  apply (random_schemas_keep_faker_and_env Ref.gen Samples.random_schema 3
           Samples.other_world).
  intros k spec Hin. cbn in Hin.
  destruct Hin as [[= <- <-]|[[= <- <-]|[]]]; reflexivity.
Defined.
